(** * sqlalchemy-sqlserver-wrapper: connection strings, connection factory
      and the [DatabaseConfig] reflection object.

    Shallow embedding of [connection_functions.py], [custom_exceptions.py]
    and [database_object_configuration.py].  Python strings are [string],
    [None]-able arguments are [option string], exceptions are an inductive
    type, and a call either returns a value or raises. *)

From Stdlib Require Import Ascii.
From stdpp Require Import gmap strings list relations.

(** ** Exceptions ([custom_exceptions.py]) *)

(** The five exception classes of the package carry the message they were
    built with ([ConnectionStringParsingError] is raised without one).
    [ImportError] is the builtin re-raised by the factory.  [ForeignError]
    stands for every exception that is raised by the interpreter itself
    ([TypeError], [AttributeError]) or by a third-party library. *)
Inductive exn : Type :=
  | UnknownDatabaseDriverError (msg : string)
  | ConnectionStringParsingError
  | MissingSchemaError (msg : string)
  | MissingViewError (msg : string)
  | MissingTableError (msg : string)
  | ImportError (msg : string)
  | ForeignError (descr : string).

(** Outcome of a call: [return v] or [raise e]. *)
Inductive result (A : Type) : Type :=
  | Return (v : A)
  | Raise (e : exn).
Arguments Return {A} v.
Arguments Raise {A} e.

(** ** Python string operations used by the source *)

Module PyStr.

(** [s.startswith(p)] *)
Fixpoint startswith (s p : string) {struct p} : bool :=
  match p with
  | EmptyString => true
  | String a p' =>
      match s with
      | EmptyString => false
      | String b s' => Ascii.eqb a b && startswith s' p'
      end
  end.

(** [needle in hay] on two [str]: [needle] occurs as a substring. *)
Fixpoint str_in (needle hay : string) : bool :=
  startswith hay needle
  || match hay with
     | EmptyString => false
     | String _ hay' => str_in needle hay'
     end.

(** [c in s] for a one-character [c]. *)
Fixpoint char_in (c : ascii) (s : string) : bool :=
  match s with
  | EmptyString => false
  | String a s' => Ascii.eqb a c || char_in c s'
  end.

(** The line feed inside a triple-quoted literal. *)
Definition LF : string := String (ascii_of_nat 10) EmptyString.

End PyStr.
Import PyStr.

(** ** [connection_functions.generate_sql_connection_string] *)

(** The text whose presence selects integrated (trusted) authentication. *)
Definition trusted_marker : string := "Trusted_Connection=Yes".

Definition generate_sql_connection_string
    (server database : string) (uid pwd : option string) : result string :=
  match pwd with
  | None =>
      match uid with
      | None =>
          Return ("DRIVER={SQL Server};"
                  +:+ "SERVER=" +:+ server +:+ ";"
                  +:+ "DATABASE=" +:+ database +:+ ";"
                  +:+ "UID=;Trusted_Connection=Yes")
      | Some uid =>
          Return ("DRIVER={SQL Server};"
                  +:+ "SERVER=" +:+ server +:+ ";"
                  +:+ "DATABASE=" +:+ database +:+ ";"
                  +:+ "UID=" +:+ uid +:+ ";"
                  +:+ "Trusted_Connection=Yes")
      end
  | Some pwd =>
      match uid with
      | None => Raise ConnectionStringParsingError
      | Some uid =>
          Return ("DRIVER={SQL Server};"
                  +:+ "SERVER=" +:+ server +:+ ";"
                  +:+ "DATABASE=" +:+ database +:+ ";"
                  +:+ "UID=" +:+ uid +:+ ";"
                  +:+ "PWD=" +:+ pwd)
      end
  end.

(** ** The world outside the package

    Everything below the package is third-party: the import system,
    [urllib.parse.quote_plus], SQLAlchemy's [create_engine], [inspect],
    [MetaData] and [Table], [pyodbc.connect] and [pymssql.connect].  None of
    it is in the repository, so it is a parameter of the model: a [Backend]
    gives the type of worlds (the live database and the installed
    libraries) and one oracle per third-party call.  An oracle reads the
    world, answers or fails, and leaves a new world. *)

Inductive answer (A : Type) : Type :=
  | Ans (a : A)
  | Fail (descr : string).
Arguments Ans {A} a.
Arguments Fail {A} descr.

Record Backend : Type := {
  World : Type;
  (** engine and connection objects *)
  Handle : Type;
  (** [sqlalchemy.MetaData] objects *)
  MetaData : Type;
  (** [sqlalchemy.Table] objects *)
  Table : Type;
  (** [urllib.parse.quote_plus(s)]: a function of its argument, which
      raises on a string that it cannot encode *)
  quote_plus : string → answer string;
  (** [import name] succeeds (otherwise it raises [ImportError]) *)
  importable : string → World → bool;
  create_engine : string → World → answer Handle * World;
  pyodbc_connect : string → World → answer Handle * World;
  pymssql_connect :
    string → string → option (string * string) → World → answer Handle * World;
  (** [sqlalchemy.inspect(engine).get_schema_names()] *)
  get_schema_names : Handle → World → answer (list string) * World;
  (** [sqlalchemy.inspect(engine).get_table_names([schema])] *)
  get_table_names : Handle → option string → World → answer (list string) * World;
  (** [sqlalchemy.inspect(engine).get_view_names([schema])] *)
  get_view_names : Handle → option string → World → answer (list string) * World;
  (** [sqlalchemy.MetaData(schema=schema)] *)
  new_MetaData : string → World → MetaData * World;
  (** [sqlalchemy.Table(name, metadata, autoload_with=engine)] *)
  reflect_Table : string → MetaData → Handle → World → answer Table * World;
  (** [str()] of the foreign objects, as an f-string renders them *)
  str_of_Handle : Handle → string;
  str_of_Table : Table → string;
  str_of_cache : gmap string MetaData → string;
}.

(** Calls that leave the package, in the order they are made. *)
Inductive event : Type :=
  | EvCreateEngine (url : string)
  | EvPyodbcConnect (connection_string : string)
  | EvPymssqlConnect (server database : string) (cred : option (string * string))
  | EvSchemaNames
  | EvTableNames (schema : option string)
  | EvViewNames (schema : option string)
  | EvNewMetaData (schema : string)
  | EvReflect (name schema : string).

(** An event that opens a connection or makes an engine. *)
Definition opens_handle (ev : event) : bool :=
  match ev with
  | EvCreateEngine _ | EvPyodbcConnect _ | EvPymssqlConnect _ _ _ => true
  | _ => false
  end.

Section Model.
Context (B : Backend).

(** What an instance attribute can hold. *)
Inductive value : Type :=
  | VNone
  | VStr (s : string)
  | VDict (m : gmap string (MetaData B))
  | VHandle (h : Handle B)
  | VTable (t : Table B).

(** The instance ([self.__dict__]), the world, and the calls made so
    far.  The state survives a raised exception. *)
Record state : Type := State {
  attrs : gmap string value;
  world : World B;
  trace : list event;
}.

Definition M (A : Type) : Type := state → result A * state.

Definition ret {A} (v : A) : M A := λ st, (Return v, st).
Definition raise {A} (e : exn) : M A := λ st, (Raise e, st).
Definition bind {A C} (k : A → M C) (c : M A) : M C :=
  λ st, match c st with
        | (Return v, st') => k v st'
        | (Raise e, st') => (Raise e, st')
        end.

#[local] Instance M_ret : MRet M := @ret.
#[local] Instance M_bind : MBind M := @bind.

Definition lift {A} (r : result A) : M A := λ st, (r, st).

(** A third-party call: logged, answered by the oracle. *)
Definition external {A} (ev : event)
    (oracle : World B → answer A * World B) : M A :=
  λ st, let '(a, w) := oracle (world st) in
        (match a with
         | Ans v => Return v
         | Fail d => Raise (ForeignError d)
         end,
         State (attrs st) w (trace st ++ [ev])).

(** A third-party function that reads no state: it answers or raises,
    and nothing is logged. *)
Definition foreign {A} (a : answer A) : M A :=
  λ st, (match a with
         | Ans v => Return v
         | Fail d => Raise (ForeignError d)
         end, st).

(** [try: import name / except ImportError: raise ImportError(msg)] *)
Definition import_or_raise (name msg : string) : M unit :=
  λ st, if importable B name (world st) then (Return (), st)
        else (Raise (ImportError msg), st).

(** *** [connection_functions.generate_sql_connection] *)

Definition unknown_driver_message (driver : string) : string :=
  "Unknown database connection driver: " +:+ driver +:+ LF
  +:+ "            Options are: sqlalchemy, pyodbc, pymssql".

Definition generate_sql_connection
    (server database : string) (uid pwd : option string) (driver : string)
    : M (Handle B) :=
  connection_string ← lift (generate_sql_connection_string server database uid pwd);
  if decide (driver = "sqlalchemy") then
    import_or_raise "sqlalchemy"
      "Must have sqlalchemy installed to use sqlalchemy driver";;
    quoted ← foreign (quote_plus B connection_string);
    let url := "mssql+pyodbc:///?odbc_connect=" +:+ quoted in
    external (EvCreateEngine url) (create_engine B url)
  else if decide (driver = "pyodbc") then
    import_or_raise "pyodbc"
      "Must have pyodbc installed to use pyodbc driver";;
    external (EvPyodbcConnect connection_string)
             (pyodbc_connect B connection_string)
  else if decide (driver = "pymssql") then
    import_or_raise "pymssql"
      "Must have pymssql installed to use pymssql driver";;
    match uid, pwd with
    | Some u, Some p =>
        external (EvPymssqlConnect server database (Some (u, p)))
                 (pymssql_connect B server database (Some (u, p)))
    | _, _ =>
        external (EvPymssqlConnect server database None)
                 (pymssql_connect B server database None)
    end
  else
    raise (UnknownDatabaseDriverError (unknown_driver_message driver)).

(** *** Attribute access on the instance

    [setattr(self, name, v)] stores into the instance dictionary, whatever
    the name: the fields made by [__init__] and the names of the class's
    methods are ordinary keys.  Three names are data descriptors of every
    plain class and refuse the value. *)
Definition refused_names : list string :=
  ["__class__"; "__dict__"; "__weakref__"].

Definition setattr (name : string) (v : value) : M unit :=
  λ st, if bool_decide (name ∈ refused_names)
        then (Raise (ForeignError ("cannot set attribute " +:+ name)), st)
        else (Return (), State (<[name := v]> (attrs st)) (world st) (trace st)).

(** [self.name] for a field *)
Definition getattr (name : string) : M value :=
  λ st, match attrs st !! name with
        | Some v => (Return v, st)
        | None => (Raise (ForeignError ("no attribute " +:+ name)), st)
        end.

(** [self.name(...)] for a method of the class: the functions of a class
    are non-data descriptors, so an instance attribute of the same name is
    found first; nothing that the package stores is callable. *)
Definition method {A} (name : string) (body : M A) : M A :=
  λ st, match attrs st !! name with
        | None => body st
        | Some _ => (Raise (ForeignError (name +:+ " is not callable")), st)
        end.

(** [f"{v}"] *)
Definition fmt (v : value) : string :=
  match v with
  | VNone => "None"
  | VStr s => s
  | VDict m => str_of_cache B m
  | VHandle h => str_of_Handle B h
  | VTable t => str_of_Table B t
  end.

(** an argument that is tested with [is None] and then formatted *)
Definition optional (v : value) : option string :=
  match v with
  | VNone => None
  | _ => Some (fmt v)
  end.

Definition of_optional (o : option string) : value :=
  match o with
  | None => VNone
  | Some s => VStr s
  end.

(** the object held by [self.engine], handed to SQLAlchemy *)
Definition as_engine (v : value) : M (Handle B) :=
  match v with
  | VHandle h => ret h
  | _ => raise (ForeignError "not an engine")
  end.

(** the object held by [self.metadata_dict], used as a [dict] *)
Definition as_dict (v : value) : M (gmap string (MetaData B)) :=
  match v with
  | VDict m => ret m
  | _ => raise (ForeignError "not a dict")
  end.

(** *** [DatabaseConfig] *)

Definition default_schema : string := "dbo".

Definition _create_engine : M unit :=
  server ← getattr "server";
  database ← getattr "database";
  uid ← getattr "uid";
  pwd ← getattr "pwd";
  engine ← generate_sql_connection (fmt server) (fmt database)
             (optional uid) (optional pwd) "sqlalchemy";
  setattr "engine" (VHandle engine).

Definition __init__ (server database : string) (uid pwd : option string)
    : M unit :=
  setattr "server" (VStr server);;
  setattr "database" (VStr database);;
  setattr "uid" (of_optional uid);;
  setattr "pwd" (of_optional pwd);;
  setattr "metadata_dict" (VDict ∅);;
  method "_create_engine" _create_engine.

Definition _list_schema_from_engine : M (list string) :=
  engine ← getattr "engine";
  h ← as_engine engine;
  external EvSchemaNames (get_schema_names B h).

Definition _list_tables_from_engine (schema : option string)
    : M (list string) :=
  match schema with
  | None =>
      engine ← getattr "engine";
      h ← as_engine engine;
      external (EvTableNames None) (get_table_names B h None)
  | Some schema =>
      engine ← getattr "engine";
      h ← as_engine engine;
      external (EvTableNames (Some schema)) (get_table_names B h (Some schema))
  end.

Definition _list_views_from_engine (schema : option string)
    : M (list string) :=
  match schema with
  | None =>
      engine ← getattr "engine";
      h ← as_engine engine;
      external (EvViewNames None) (get_view_names B h None)
  | Some schema =>
      engine ← getattr "engine";
      h ← as_engine engine;
      external (EvViewNames (Some schema)) (get_view_names B h (Some schema))
  end.

(** [self.metadata_dict[schema] = md]: the dictionary object held by the
    attribute is updated in place. *)
Definition setitem_metadata_dict (schema : string) (md : MetaData B) : M unit :=
  λ st, match attrs st !! "metadata_dict" with
        | Some (VDict m) =>
            (Return (),
             State (<["metadata_dict" := VDict (<[schema := md]> m)]> (attrs st))
                   (world st) (trace st))
        | Some _ => (Raise (ForeignError "no item assignment"), st)
        | None => (Raise (ForeignError "no attribute metadata_dict"), st)
        end.

(** The first two steps are the same text in [_reflect_view] (lines
    116-123) and [_reflect_table] (lines 152-159). *)

(** [# Check for schema in database connection] *)
Definition check_schema (schema : string) : M unit :=
  schemas ← method "_list_schema_from_engine" _list_schema_from_engine;
  if bool_decide (schema ∈ schemas) then ret ()
  else
    server ← getattr "server";
    database ← getattr "database";
    raise (MissingSchemaError
             ("Schema: " +:+ schema +:+ " is missing from "
              +:+ fmt server +:+ "." +:+ fmt database)).

(** [# Add schema to metadata_dict] *)
Definition add_schema (schema : string) : M unit :=
  d ← getattr "metadata_dict";
  m ← as_dict d;
  match m !! schema with
  | Some _ => ret ()
  | None =>
      md ← external (EvNewMetaData schema)
             (λ w, let '(md, w') := new_MetaData B schema w in (Ans md, w'));
      setitem_metadata_dict schema md
  end.

(** [sqlalchemy.Table(name, self.metadata_dict[schema],
                      autoload_with=self.engine)] *)
Definition make_Table (name schema : string) : M (Table B) :=
  d ← getattr "metadata_dict";
  m ← as_dict d;
  match m !! schema with
  | None => raise (ForeignError "KeyError")
  | Some md =>
      engine ← getattr "engine";
      h ← as_engine engine;
      external (EvReflect name schema) (reflect_Table B name md h)
  end.

Definition _reflect_view (view schema : string) : M (Table B) :=
  check_schema schema;;
  add_schema schema;;
  views ← method "_list_views_from_engine"
            (_list_views_from_engine (Some schema));
  if bool_decide (view ∈ views) then make_Table view schema
  else
    server ← getattr "server";
    database ← getattr "database";
    raise (MissingViewError
             ("View: " +:+ view +:+ " is missing from "
              +:+ fmt server +:+ "." +:+ fmt database +:+ "." +:+ schema)).

Definition _reflect_table (table schema : string) : M (Table B) :=
  check_schema schema;;
  add_schema schema;;
  tables ← method "_list_tables_from_engine"
             (_list_tables_from_engine (Some schema));
  if bool_decide (table ∈ tables) then make_Table table schema
  else
    server ← getattr "server";
    database ← getattr "database";
    raise (MissingTableError
             ("View: " +:+ table +:+ " is missing from "
              +:+ fmt server +:+ "." +:+ fmt database +:+ "." +:+ schema)).

Definition set_table (table : string) (attr_name : option string)
    (schema : string) : M unit :=
  let attr_name := match attr_name with None => table | Some a => a end in
  tbl ← method "_reflect_table" (_reflect_table table schema);
  setattr attr_name (VTable tbl).

Definition set_view (view : string) (attr_name : option string)
    (schema : string) : M unit :=
  let attr_name := match attr_name with None => view | Some a => a end in
  vw ← method "_reflect_view" (_reflect_view view schema);
  setattr attr_name (VTable vw).

(** *** Using an instance *)

(** [DatabaseConfig(server, database, uid, pwd)] in world [w]: a new, empty
    object is initialised; the caller gets it only if [__init__] returns. *)
Definition DatabaseConfig (server database : string) (uid pwd : option string)
    (w : World B) : result () * state :=
  __init__ server database uid pwd (State ∅ w []).

(** A bind call made on the instance, [cfg.set_table(...)] or
    [cfg.set_view(...)]. *)
Inductive call : Type :=
  | SetTable (table : string) (attr_name : option string) (schema : string)
  | SetView (view : string) (attr_name : option string) (schema : string).

Definition invoke (c : call) : M unit :=
  match c with
  | SetTable table attr_name schema =>
      method "set_table" (set_table table attr_name schema)
  | SetView view attr_name schema =>
      method "set_view" (set_view view attr_name schema)
  end.

(** The same call, giving back the descriptor that its reflect step
    produced. *)
Definition descriptor_of (c : call) : M (Table B) :=
  match c with
  | SetTable table _ schema =>
      method "set_table" (method "_reflect_table" (_reflect_table table schema))
  | SetView view _ schema =>
      method "set_view" (method "_reflect_view" (_reflect_view view schema))
  end.

(** the attribute name a call resolves to *)
Definition resolved_name (c : call) : string :=
  match c with
  | SetTable table None _ => table
  | SetView view None _ => view
  | SetTable _ (Some a) _ | SetView _ (Some a) _ => a
  end.

Definition schema_of (c : call) : string :=
  match c with
  | SetTable _ _ schema | SetView _ _ schema => schema
  end.

(** [self.metadata_dict[schema]], when the attribute still is the cache *)
Definition cache_entry (st : state) (schema : string) : option (MetaData B) :=
  match attrs st !! "metadata_dict" with
  | Some (VDict m) => m !! schema
  | _ => None
  end.

(** *** Notions used to state the properties *)

(** The attributes that [__init__] makes. *)
Definition fields : list string :=
  ["server"; "database"; "uid"; "pwd"; "metadata_dict"; "engine"].

(** A [DatabaseConfig] instance has them all ([setattr] never removes
    one). *)
Definition is_instance (st : state) : Prop :=
  ∀ f, f ∈ fields → is_Some (attrs st !! f).

(** The methods of the class that a bind call goes through. *)
Definition own_methods (c : call) : list string :=
  match c with
  | SetTable _ _ _ =>
      ["set_table"; "_reflect_table"; "_list_schema_from_engine";
       "_list_tables_from_engine"]
  | SetView _ _ _ =>
      ["set_view"; "_reflect_view"; "_list_schema_from_engine";
       "_list_views_from_engine"]
  end.

(** None of them is hidden by an instance attribute of the same name. *)
Definition unshadowed (st : state) (c : call) : Prop :=
  ∀ n, n ∈ own_methods c → attrs st !! n = None.

(** The methods that a bind call goes through up to its schema check. *)
Definition schema_check_methods (c : call) : list string :=
  match c with
  | SetTable _ _ _ =>
      ["set_table"; "_reflect_table"; "_list_schema_from_engine"]
  | SetView _ _ _ =>
      ["set_view"; "_reflect_view"; "_list_schema_from_engine"]
  end.

Definition schema_check_unshadowed (st : state) (c : call) : Prop :=
  ∀ n, n ∈ schema_check_methods c → attrs st !! n = None.

(** the table or view that a call names *)
Definition object_name (c : call) : string :=
  match c with
  | SetTable table _ _ => table
  | SetView view _ _ => view
  end.

(** the live list that the call looks its object up in *)
Definition live_names (c : call) (h : Handle B)
    : World B → answer (list string) * World B :=
  match c with
  | SetTable _ _ schema => get_table_names B h (Some schema)
  | SetView _ _ schema => get_view_names B h (Some schema)
  end.

Definition names_event (c : call) : event :=
  match c with
  | SetTable _ _ schema => EvTableNames (Some schema)
  | SetView _ _ schema => EvViewNames (Some schema)
  end.

(** [MissingTableError] for [set_table], [MissingViewError] for
    [set_view] *)
Definition is_missing_object (c : call) (e : exn) : Prop :=
  match c, e with
  | SetTable _ _ _, MissingTableError _ => True
  | SetView _ _ _, MissingViewError _ => True
  | _, _ => False
  end.

(** the world in which the object list is asked for: the one left by the
    schema query, after [MetaData] was made if the cache lacked the
    schema *)
Definition world_after_cache (m : gmap string (MetaData B)) (schema : string)
    (w : World B) : World B :=
  match m !! schema with
  | Some _ => w
  | None => (new_MetaData B schema w).2
  end.

(** the events that only look at the database *)
Definition inspects (ev : event) : Prop :=
  match ev with
  | EvSchemaNames | EvTableNames _ | EvViewNames _ | EvReflect _ _ => True
  | _ => False
  end.




(** A computation that leaves the attributes alone and only looks at the
    database. *)
Definition quiet {A} (c : M A) : Prop :=
  ∀ st, attrs (c st).2 = attrs st
        ∧ ∃ evs, trace (c st).2 = trace st ++ evs ∧ Forall inspects evs.

(** What the reflect step of a bind call can do to the instance: nothing,
    or add the entry of its schema to the cache, once. *)
Inductive reflect_effect (schema : string) (st st' : state) : Prop :=
  | effect_none evs :
      attrs st' = attrs st →
      trace st' = trace st ++ evs →
      Forall inspects evs →
      reflect_effect schema st st'
  | effect_cached m md evs1 evs2 :
      attrs st !! "metadata_dict" = Some (VDict m) →
      m !! schema = None →
      attrs st' = <["metadata_dict" := VDict (<[schema := md]> m)]> (attrs st) →
      trace st' = trace st ++ evs1 ++ EvNewMetaData schema :: evs2 →
      Forall inspects evs1 →
      Forall inspects evs2 →
      reflect_effect schema st st'.



(** the exception class of a missing object *)
Definition object_error (c : call) : string → exn :=
  match c with
  | SetTable _ _ _ => MissingTableError
  | SetView _ _ _ => MissingViewError
  end.

(** the two messages, as the f-strings build them *)
Definition missing_schema_message (c : call) (server database : value)
    : string :=
  "Schema: " +:+ schema_of c +:+ " is missing from "
  +:+ fmt server +:+ "." +:+ fmt database.

Definition missing_object_message (c : call) (server database : value)
    : string :=
  "View: " +:+ object_name c +:+ " is missing from "
  +:+ fmt server +:+ "." +:+ fmt database +:+ "." +:+ schema_of c.

(** What the cache step leaves, given the cache [m] it found and the
    world [w] it ran in: the [MetaData] object of the schema, the
    attributes, and the event of the creation if there was one. *)
Definition cached_MetaData (m : gmap string (MetaData B)) (schema : string)
    (w : World B) : MetaData B :=
  match m !! schema with
  | Some md => md
  | None => (new_MetaData B schema w).1
  end.

Definition attrs_after_cache (m : gmap string (MetaData B)) (schema : string)
    (w : World B) (a : gmap string value) : gmap string value :=
  match m !! schema with
  | Some _ => a
  | None =>
      <["metadata_dict" :=
          VDict (<[schema := (new_MetaData B schema w).1]> m)]> a
  end.

Definition creation_events (m : gmap string (MetaData B)) (schema : string)
    : list event :=
  match m !! schema with
  | Some _ => []
  | None => [EvNewMetaData schema]
  end.

(** the calls to the backend that a bind call makes when all goes well *)
Definition protocol (c : call) (m : gmap string (MetaData B)) : list event :=
  EvSchemaNames
  :: creation_events m (schema_of c)
  ++ [names_event c; EvReflect (object_name c) (schema_of c)].

(** What may happen to an instance: a bind call (whose exception the
    caller may catch), or the world moving on by itself. *)
Inductive step : state → state → Prop :=
  | step_invoke c st : step st (invoke c st).2
  | step_world w st : step st (State (attrs st) w (trace st)).

End Model.

Arguments State {B} attrs world trace.
Arguments attrs {B} s.
Arguments world {B} s.
Arguments trace {B} s.
Arguments VNone {B}.
Arguments VStr {B} s.
Arguments VDict {B} m.
Arguments VHandle {B} h.
Arguments VTable {B} t.
Arguments effect_none {B schema st st'} evs.
Arguments effect_cached {B schema st st'} m md evs1 evs2.

(** ** A small database to run the model on

    Two schemas; [dbo] holds the tables [orders] and [engine] and the view
    [open_orders], [sales] holds a table [orders].  An engine is its URL, a
    [MetaData] object is its allocation number and schema, a reflected
    table is its name and the [MetaData] it was registered in. *)
Module Shop.

Definition tables (schema : option string) : list string :=
  match schema with
  | Some "dbo" => ["orders"; "engine"]
  | Some "sales" => ["orders"]
  | _ => []
  end.

Definition views (schema : option string) : list string :=
  match schema with
  | Some "dbo" => ["open_orders"]
  | _ => []
  end.

Definition backend : Backend := {|
  World := nat;
  Handle := string;
  MetaData := nat * string;
  Table := string * (nat * string);
  quote_plus := λ s, Ans s;
  importable := λ name _, bool_decide (name = "sqlalchemy");
  create_engine := λ url w, (Ans url, w);
  pyodbc_connect := λ _ w, (Fail "no ODBC driver", w);
  pymssql_connect := λ _ _ _ w, (Fail "no server", w);
  get_schema_names := λ _ w, (Ans ["dbo"; "sales"], w);
  get_table_names := λ _ schema w, (Ans (tables schema), w);
  get_view_names := λ _ schema w, (Ans (views schema), w);
  new_MetaData := λ schema w, ((w, schema), S w);
  reflect_Table := λ name md _ w, (Ans (name, md), w);
  str_of_Handle := λ h, h;
  str_of_Table := λ t, t.1;
  str_of_cache := λ _, "{...}";
|}.

(** The same database reached from a machine on which all three drivers
    are installed; a connection is the driver and the target. *)
Definition all_drivers : Backend := {|
  World := nat;
  Handle := string;
  MetaData := nat * string;
  Table := string * (nat * string);
  quote_plus := λ s, Ans s;
  importable := λ _ _, true;
  create_engine := λ url w, (Ans url, w);
  pyodbc_connect := λ cs w, (Ans ("pyodbc:" +:+ cs), w);
  pymssql_connect :=
    λ server database _ w,
      (Ans ("pymssql:" +:+ server +:+ "/" +:+ database), w);
  get_schema_names := λ _ w, (Ans ["dbo"; "sales"], w);
  get_table_names := λ _ schema w, (Ans (tables schema), w);
  get_view_names := λ _ schema w, (Ans (views schema), w);
  new_MetaData := λ schema w, ((w, schema), S w);
  reflect_Table := λ name md _ w, (Ans (name, md), w);
  str_of_Handle := λ h, h;
  str_of_Table := λ t, t.1;
  str_of_cache := λ _, "{...}";
|}.

(** before any instance is made *)
Definition start : state backend := @State backend ∅ 0 [].

(** [cfg = DatabaseConfig("srv", "shop")] *)
Definition cfg : state backend :=
  (DatabaseConfig backend "srv" "shop" None None 0).2.

(** the state left by a sequence of calls, exceptions caught *)
Definition after (calls : list call) (st : state backend) : state backend :=
  foldl (λ st c, (invoke backend c st).2) st calls.

End Shop.


(** * Properties *)

(** ** Substrings of concatenations *)

Section Substrings.
Implicit Types s p r needle : string.

Lemma append_cons a s r : String a s +:+ r = String a (s +:+ r).
Proof. reflexivity. Qed.

Lemma append_assoc s p r : (s +:+ p) +:+ r = s +:+ p +:+ r.
Proof.
  induction s as [|a s IH]; [done|].
  by rewrite !append_cons, IH.
Qed.

Lemma str_in_cons needle a s :
  str_in needle (String a s) = startswith (String a s) needle || str_in needle s.
Proof. reflexivity. Qed.

Lemma startswith_append s r : startswith (s +:+ r) s = true.
Proof.
  induction s as [|a s IH]; [done|].
  rewrite append_cons. simpl. by rewrite Ascii.eqb_refl, IH.
Qed.

Lemma str_in_here needle r : str_in needle (needle +:+ r) = true.
Proof.
  destruct needle as [|a n]; [by destruct r|].
  rewrite append_cons, str_in_cons, <- append_cons.
  by rewrite startswith_append.
Qed.

Lemma str_in_self s : str_in s s = true.
Proof.
  assert (Hs : ∀ p, startswith p p = true).
  { induction p as [|a p IH]; [done|]. simpl. by rewrite Ascii.eqb_refl, IH. }
  destruct s as [|a s]; [done|]. by rewrite str_in_cons, Hs.
Qed.

Lemma str_in_append_r needle s r :
  str_in needle r = true → str_in needle (s +:+ r) = true.
Proof.
  intros Hr. induction s as [|a s IH]; [done|].
  rewrite append_cons, str_in_cons, IH. apply orb_true_r.
Qed.

(** a needle is found in whatever surrounds it *)
Lemma str_in_middle needle s r : str_in needle (s +:+ needle +:+ r) = true.
Proof. apply str_in_append_r, str_in_here. Qed.

(** A separator that is not in the needle cuts the search in two. *)
Lemma startswith_cut c p : ∀ s r,
  char_in c p = false → startswith (s +:+ String c r) p = startswith s p.
Proof.
  induction p as [|a p IH]; intros s r Hc; [done|].
  simpl in Hc. apply orb_false_elim in Hc as [Hac Hp].
  destruct s as [|b s].
  - change (Ascii.eqb a c && startswith r p = false). by rewrite Hac.
  - rewrite append_cons. simpl. by rewrite IH.
Qed.

Lemma str_in_cut needle c s r :
  char_in c needle = false →
  str_in needle (s +:+ String c r) = str_in needle s || str_in needle r.
Proof.
  intros Hc. induction s as [|b s IH].
  - change (startswith (EmptyString +:+ String c r) needle || str_in needle r
            = (startswith EmptyString needle || false) || str_in needle r).
    rewrite startswith_cut by done. by rewrite orb_false_r.
  - rewrite append_cons, !str_in_cons, <- append_cons.
    rewrite startswith_cut, IH by done. by rewrite orb_assoc.
Qed.

End Substrings.

(** ** The connection-string builder *)

(** the marker is not hidden in the fixed text in front of a value *)
Lemma marker_after_label (v : string) :
  str_in trusted_marker ("SERVER=" +:+ v) = str_in trusted_marker v
  ∧ str_in trusted_marker ("DATABASE=" +:+ v) = str_in trusted_marker v
  ∧ str_in trusted_marker ("UID=" +:+ v) = str_in trusted_marker v
  ∧ str_in trusted_marker ("PWD=" +:+ v) = str_in trusted_marker v.
Proof. repeat split; reflexivity. Qed.

(** Where the marker can be in a user-id/password string: only inside one
    of the four values. *)
Lemma marker_in_credentials_string (server database uid pwd : string) :
  str_in trusted_marker
    ("DRIVER={SQL Server};"
     +:+ "SERVER=" +:+ server +:+ ";"
     +:+ "DATABASE=" +:+ database +:+ ";"
     +:+ "UID=" +:+ uid +:+ ";"
     +:+ "PWD=" +:+ pwd)
  = str_in trusted_marker server || str_in trusted_marker database
    || str_in trusted_marker uid || str_in trusted_marker pwd.
Proof.
  destruct (marker_after_label server) as (Hs & _).
  destruct (marker_after_label database) as (_ & Hd & _).
  destruct (marker_after_label uid) as (_ & _ & Hu & _).
  destruct (marker_after_label pwd) as (_ & _ & _ & Hp).
  assert (Hsep : ∀ r : string, ";" +:+ r = String ";" r) by done.
  change ("DRIVER={SQL Server};" +:+ ?r) with ("DRIVER={SQL Server}" +:+ String ";" r).
  rewrite !Hsep, str_in_cut by done.
  rewrite <- (append_assoc "SERVER=" server), str_in_cut by done.
  rewrite <- (append_assoc "DATABASE=" database), str_in_cut by done.
  rewrite <- (append_assoc "UID=" uid), str_in_cut by done.
  rewrite Hs, Hd, Hu, Hp.
  change (str_in trusted_marker "DRIVER={SQL Server}") with false.
  by rewrite !orb_assoc.
Qed.

(** C1. For every server and database, a password without a user id makes
    the builder raise [ConnectionStringParsingError]; no string is
    returned. *)
Theorem C1_password_without_uid_raises (server database pwd : string) :
  generate_sql_connection_string server database None (Some pwd)
  = Raise ConnectionStringParsingError
  ∧ ∀ s, generate_sql_connection_string server database None (Some pwd)
         ≠ Return s.
Proof. split; [reflexivity | discriminate]. Qed.

(** C2 as stated fails: with user id [ann] and the password
    [pw;Trusted_Connection=Yes] the builder returns a string that holds
    both values and also the trusted-connection marker. *)
Lemma C2_marker_inside_password :
  ¬ ∃ s, generate_sql_connection_string "srv" "shop" (Some "ann")
           (Some "pw;Trusted_Connection=Yes") = Return s
         ∧ str_in "ann" s = true
         ∧ str_in "pw;Trusted_Connection=Yes" s = true
         ∧ str_in trusted_marker s = false.
Proof. intros (s & [= <-] & _ & _ & Hno). vm_compute in Hno. discriminate. Qed.

(** C2, amended.  For every server and database: without credentials the
    string holds the trusted-connection marker and an empty UID field;
    with a user id only it holds the marker and that user id in the UID
    field; with user id and password it holds both values in their
    fields, and the marker occurs in it exactly when it occurs in one of
    the four values (the fixed text adds none). *)
Theorem C2_connection_string_shapes (server database : string) :
  (∃ s, generate_sql_connection_string server database None None = Return s
        ∧ str_in trusted_marker s = true
        ∧ str_in "UID=;" s = true)
  ∧ (∀ uid, ∃ s,
        generate_sql_connection_string server database (Some uid) None = Return s
        ∧ str_in trusted_marker s = true
        ∧ str_in ("UID=" +:+ uid +:+ ";") s = true)
  ∧ (∀ uid pwd, ∃ s,
        generate_sql_connection_string server database (Some uid) (Some pwd)
        = Return s
        ∧ str_in uid s = true ∧ str_in pwd s = true
        ∧ str_in ("UID=" +:+ uid +:+ ";") s = true
        ∧ str_in ("PWD=" +:+ pwd) s = true
        ∧ str_in trusted_marker s
          = str_in trusted_marker server || str_in trusted_marker database
            || str_in trusted_marker uid || str_in trusted_marker pwd).
Proof.
  split; [|split].
  - eexists; split; [reflexivity|].
    split; do 7 apply str_in_append_r; done.
  - intros uid. eexists; split; [reflexivity|]. split.
    + do 10 apply str_in_append_r. done.
    + do 7 apply str_in_append_r.
      rewrite <- (append_assoc uid ";"), <- (append_assoc "UID=" (uid +:+ ";")).
      apply str_in_here.
  - intros uid pwd. eexists; split; [reflexivity|]. repeat split.
    + do 8 apply str_in_append_r. apply str_in_here.
    + do 11 apply str_in_append_r. apply str_in_self.
    + do 7 apply str_in_append_r.
      rewrite <- (append_assoc uid ";"), <- (append_assoc "UID=" (uid +:+ ";")).
      apply str_in_here.
    + do 10 apply str_in_append_r. apply str_in_self.
    + apply marker_in_credentials_string.
Qed.

(** ** The connection factory *)

(** C10. For every server, database and driver tag, recognised or not, a
    password without a user id makes the factory raise
    [ConnectionStringParsingError]: the string is built before the
    dispatch on the tag, so nothing is imported and no backend is called
    (the state is the one the call started in). *)
Theorem C10_parsing_error_before_dispatch (B : Backend)
    (server database pwd driver : string) (st : state B) :
  generate_sql_connection B server database None (Some pwd) driver st
  = (Raise ConnectionStringParsingError, st).
Proof. reflexivity. Qed.

(** C3 as stated fails: with a password and no user id an unknown tag
    does not get as far as the unknown-driver error. *)
Lemma C3_unknown_tag_with_lone_password :
  ¬ ∃ msg,
      (generate_sql_connection Shop.backend "srv" "shop" None (Some "pw")
         "oracle" Shop.start).1
      = Raise (UnknownDatabaseDriverError msg).
Proof. intros [msg Hmsg]. vm_compute in Hmsg. discriminate. Qed.

(** the message names the three tags, whatever the rejected tag is *)
Lemma unknown_driver_message_options (driver : string) :
  str_in "Options are: sqlalchemy, pyodbc, pymssql"
         (unknown_driver_message driver) = true
  ∧ str_in "sqlalchemy" (unknown_driver_message driver) = true
  ∧ str_in "pyodbc" (unknown_driver_message driver) = true
  ∧ str_in "pymssql" (unknown_driver_message driver) = true.
Proof.
  unfold unknown_driver_message.
  repeat split; do 3 apply str_in_append_r; done.
Qed.

(** C3, amended.  For every server, database, uid and pwd other than a
    password without a user id, a driver tag other than [sqlalchemy],
    [pyodbc] and [pymssql] makes the factory raise
    [UnknownDatabaseDriverError] with a message that lists the three
    tags; nothing is imported and no backend is called. *)
Theorem C3_unknown_driver_raises (B : Backend)
    (server database : string) (uid pwd : option string) (driver : string)
    (st : state B) :
  driver ≠ "sqlalchemy" → driver ≠ "pyodbc" → driver ≠ "pymssql" →
  (uid = None → pwd = None) →
  generate_sql_connection B server database uid pwd driver st
  = (Raise (UnknownDatabaseDriverError (unknown_driver_message driver)), st)
  ∧ str_in "sqlalchemy" (unknown_driver_message driver) = true
  ∧ str_in "pyodbc" (unknown_driver_message driver) = true
  ∧ str_in "pymssql" (unknown_driver_message driver) = true.
Proof.
  intros H1 H2 H3 Hcred. split.
  - unfold generate_sql_connection, mbind, M_bind, bind, lift.
    assert (∃ s, generate_sql_connection_string server database uid pwd
                 = Return s) as [s ->].
    { destruct pwd as [pwd|], uid as [uid|]; simpl; eauto.
      by specialize (Hcred eq_refl). }
    by repeat case_decide.
  - destruct (unknown_driver_message_options driver) as (_ & H4 & H5 & H6).
    repeat split; assumption.
Qed.

Lemma C3_unknown_driver_raises_witness :
  generate_sql_connection Shop.backend "srv" "shop" (Some "ann") (Some "pw")
    "oracle" Shop.start
  = (Raise (UnknownDatabaseDriverError (unknown_driver_message "oracle")),
     Shop.start)
  ∧ str_in "sqlalchemy" (unknown_driver_message "oracle") = true
  ∧ str_in "pyodbc" (unknown_driver_message "oracle") = true
  ∧ str_in "pymssql" (unknown_driver_message "oracle") = true.
Proof.
  apply (C3_unknown_driver_raises Shop.backend "srv" "shop" (Some "ann")
           (Some "pw") "oracle"); discriminate.
Defined.

(** ** Running the methods of [DatabaseConfig] *)

(** a name written out is in, or not in, a list written out *)
Ltac names :=
  repeat first
    [ apply not_elem_of_nil
    | apply not_elem_of_cons; split; [discriminate|]
    | apply list_elem_of_here
    | apply list_elem_of_further ].

Section Running.
Context (B : Backend).
Implicit Types (st : state B) (c : call).

#[local] Existing Instance M_ret.
#[local] Existing Instance M_bind.

Ltac unfold_monad :=
  unfold mbind, M_bind, mret, M_ret, bind, ret, raise, lift in *.

(** *** Computations that only look *)

Lemma quiet_ret {A} (v : A) : quiet B (ret B v).
Proof. intros st. split; [done|]. exists []. by rewrite app_nil_r. Qed.

Lemma quiet_raise {A} (e : exn) : quiet B (@raise B A e).
Proof. intros st. split; [done|]. exists []. by rewrite app_nil_r. Qed.

Lemma quiet_bind {A C} (c : M B A) (k : A → M B C) :
  quiet B c → (∀ v, quiet B (k v)) → quiet B (c ≫= k).
Proof.
  intros Hc Hk st. unfold_monad.
  destruct (Hc st) as (Ha & evs & Ht & Hf).
  destruct (c st) as [[v|e] st1]; simpl in *; [|eauto].
  destruct (Hk v st1) as (Ha' & evs' & Ht' & Hf').
  split; [congruence|]. exists (evs ++ evs').
  rewrite Ht', Ht, app_assoc. split; [done | by apply Forall_app].
Qed.

Lemma quiet_getattr name : quiet B (getattr B name).
Proof.
  intros st. unfold getattr.
  destruct (attrs st !! name); (split; [done|]); exists []; by rewrite app_nil_r.
Qed.

Lemma quiet_method {A} name (body : M B A) :
  quiet B body → quiet B (method B name body).
Proof.
  intros Hb st. unfold method. destruct (attrs st !! name); [|apply Hb].
  split; [done|]. exists []. by rewrite app_nil_r.
Qed.

Lemma quiet_external {A} ev (oracle : World B → answer A * World B) :
  inspects ev → quiet B (external B ev oracle).
Proof.
  intros Hev st. unfold external. destruct (oracle (world st)) as [a w].
  split; [done|]. exists [ev]. split; [done|]. by apply Forall_singleton.
Qed.

Lemma quiet_as_engine v : quiet B (as_engine B v).
Proof. destruct v; apply quiet_ret || apply quiet_raise. Qed.

Lemma quiet_as_dict v : quiet B (as_dict B v).
Proof. destruct v; apply quiet_ret || apply quiet_raise. Qed.

Lemma quiet_list_schema : quiet B (_list_schema_from_engine B).
Proof.
  apply quiet_bind; [apply quiet_getattr|]. intros v.
  apply quiet_bind; [apply quiet_as_engine|]. intros h.
  by apply quiet_external.
Qed.

Lemma quiet_list_tables schema : quiet B (_list_tables_from_engine B schema).
Proof.
  destruct schema;
    (apply quiet_bind; [apply quiet_getattr|]; intros v;
     apply quiet_bind; [apply quiet_as_engine|]; intros h;
     by apply quiet_external).
Qed.

Lemma quiet_list_views schema : quiet B (_list_views_from_engine B schema).
Proof.
  destruct schema;
    (apply quiet_bind; [apply quiet_getattr|]; intros v;
     apply quiet_bind; [apply quiet_as_engine|]; intros h;
     by apply quiet_external).
Qed.

Lemma quiet_check_schema schema : quiet B (check_schema B schema).
Proof.
  apply quiet_bind; [apply quiet_method, quiet_list_schema|]. intros schemas.
  case_bool_decide; [apply quiet_ret|].
  apply quiet_bind; [apply quiet_getattr|]. intros server.
  apply quiet_bind; [apply quiet_getattr|]. intros database.
  apply quiet_raise.
Qed.

Lemma quiet_make_Table name schema : quiet B (make_Table B name schema).
Proof.
  apply quiet_bind; [apply quiet_getattr|]. intros d.
  apply quiet_bind; [apply quiet_as_dict|]. intros m.
  destruct (m !! schema); [|apply quiet_raise].
  apply quiet_bind; [apply quiet_getattr|]. intros e.
  apply quiet_bind; [apply quiet_as_engine|]. intros h.
  by apply quiet_external.
Qed.

(** *** The cache step *)

Lemma cache_entry_attrs st st' schema :
  attrs st' = attrs st → cache_entry B st' schema = cache_entry B st schema.
Proof. unfold cache_entry. by intros ->. Qed.

(** [add_schema] either finds the entry, or makes it, or fails on an
    attribute that is no dictionary; it raises nothing of the package. *)
Lemma add_schema_run schema st :
  (∃ m md, attrs st !! "metadata_dict" = Some (VDict m)
           ∧ m !! schema = Some md
           ∧ add_schema B schema st = (Return (), st))
  ∨ (∃ m, attrs st !! "metadata_dict" = Some (VDict m)
          ∧ m !! schema = None
          ∧ add_schema B schema st
            = (Return (),
               State (<["metadata_dict" :=
                          VDict (<[schema := (new_MetaData B schema (world st)).1]> m)]>
                        (attrs st))
                     (new_MetaData B schema (world st)).2
                     (trace st ++ [EvNewMetaData schema])))
  ∨ (∃ d, add_schema B schema st = (Raise (ForeignError d), st)).
Proof.
  unfold add_schema, getattr, as_dict, external, setitem_metadata_dict.
  unfold_monad.
  destruct (attrs st !! "metadata_dict") as [[| |m| |]|] eqn:Hd; eauto 10.
  destruct (m !! schema) as [md|] eqn:Hm; [left; eauto|].
  right; left. exists m. do 2 (split; [done|]).
  destruct (new_MetaData B schema (world st)) as [md w]. simpl.
  by rewrite Hd.
Qed.

(** [check_schema] raises nothing but a missing schema (or what the
    backend raises). *)
Lemma check_schema_raises schema st e :
  (check_schema B schema st).1 = Raise e →
  (∃ msg, e = MissingSchemaError msg) ∨ (∃ d, e = ForeignError d).
Proof.
  unfold check_schema, method, _list_schema_from_engine, getattr, as_engine,
    external.
  unfold_monad.
  repeat (case_match; simplify_eq/=); intros; simplify_eq; eauto.
Qed.

(** *** The reflect step: [check_schema], [add_schema], then looking the
    object up *)

Lemma reflect_effect_seq {A} schema (rest : M B A) st :
  quiet B rest →
  reflect_effect B schema st
    ((check_schema B schema;; add_schema B schema;; rest) st).2.
Proof.
  intros Hrest. unfold_monad.
  destruct (quiet_check_schema schema st) as (Ha1 & evs1 & Ht1 & Hf1).
  destruct (check_schema B schema st) as [[[]|e] st1]; simpl in *;
    [|by eapply effect_none].
  destruct (add_schema_run schema st1)
    as [(m & md & Hd & Hm & ->)|[(m & Hd & Hm & ->)|(d & ->)]].
  - destruct (Hrest st1) as (Ha2 & evs2 & Ht2 & Hf2).
    apply (effect_none (evs1 ++ evs2)); [congruence| |by apply Forall_app].
    by rewrite Ht2, Ht1, app_assoc.
  - match goal with |- context [rest ?s] => destruct (Hrest s) as (Ha2 & evs2 & Ht2 & Hf2) end.
    simpl in *.
    apply (effect_cached m (new_MetaData B schema (world st1)).1 evs1 evs2);
      try done; [congruence|congruence|].
    rewrite Ht2, Ht1. by rewrite <- !app_assoc.
  - by eapply effect_none.
Qed.

(** If the part after the cache step raises, the entry is there. *)
Lemma cache_entry_after_add {A} schema (rest : M B A) st e :
  quiet B rest →
  ((check_schema B schema;; add_schema B schema;; rest) st).1 = Raise e →
  (∀ msg, e ≠ MissingSchemaError msg) → (∀ d, e ≠ ForeignError d) →
  is_Some (cache_entry B
             ((check_schema B schema;; add_schema B schema;; rest) st).2 schema).
Proof.
  intros Hrest. unfold_monad.
  pose proof (check_schema_raises schema st) as Hcs.
  destruct (check_schema B schema st) as [[[]|e1] st1]; simpl in *.
  2:{ intros [= ->] H1 H2. destruct (Hcs e eq_refl) as [[msg ->]|[d ->]];
        [by destruct (H1 msg) | by destruct (H2 d)]. }
  destruct (add_schema_run schema st1)
    as [(m & md & Hd & Hm & ->)|[(m & Hd & Hm & ->)|(d & ->)]].
  - intros _ _ _. erewrite cache_entry_attrs by apply Hrest.
    unfold cache_entry. rewrite Hd. eauto.
  - intros _ _ _. erewrite cache_entry_attrs by apply Hrest.
    unfold cache_entry. simpl. rewrite lookup_insert_eq, lookup_insert_eq. eauto.
  - simpl. intros [= <-] _ H2. by destruct (H2 d).
Qed.

Lemma quiet_rest_table table schema :
  quiet B
    (tables ← method B "_list_tables_from_engine"
                (_list_tables_from_engine B (Some schema));
     if bool_decide (table ∈ tables) then make_Table B table schema
     else
       server ← getattr B "server";
       database ← getattr B "database";
       raise B (MissingTableError
                  ("View: " +:+ table +:+ " is missing from "
                   +:+ fmt B server +:+ "." +:+ fmt B database
                   +:+ "." +:+ schema))).
Proof.
  apply quiet_bind; [apply quiet_method, quiet_list_tables|]. intros tables.
  case_bool_decide; [apply quiet_make_Table|].
  apply quiet_bind; [apply quiet_getattr|]. intros server.
  apply quiet_bind; [apply quiet_getattr|]. intros database.
  apply quiet_raise.
Qed.

Lemma quiet_rest_view view schema :
  quiet B
    (views ← method B "_list_views_from_engine"
               (_list_views_from_engine B (Some schema));
     if bool_decide (view ∈ views) then make_Table B view schema
     else
       server ← getattr B "server";
       database ← getattr B "database";
       raise B (MissingViewError
                  ("View: " +:+ view +:+ " is missing from "
                   +:+ fmt B server +:+ "." +:+ fmt B database
                   +:+ "." +:+ schema))).
Proof.
  apply quiet_bind; [apply quiet_method, quiet_list_views|]. intros views.
  case_bool_decide; [apply quiet_make_Table|].
  apply quiet_bind; [apply quiet_getattr|]. intros server.
  apply quiet_bind; [apply quiet_getattr|]. intros database.
  apply quiet_raise.
Qed.

Lemma reflect_effect_refl schema st : reflect_effect B schema st st.
Proof. apply (effect_none []); [done| |done]. by rewrite app_nil_r. Qed.

Lemma reflect_effect_method {A} schema name (body : M B A) st :
  reflect_effect B schema st (body st).2 →
  reflect_effect B schema st (method B name body st).2.
Proof.
  unfold method. destruct (attrs st !! name); [|done].
  intros _. apply reflect_effect_refl.
Qed.

(** The reflect step of any bind call. *)
Lemma descriptor_of_effect c st :
  reflect_effect B (schema_of c) st (descriptor_of B c st).2.
Proof.
  destruct c as [table a schema|view a schema]; simpl;
    do 2 apply reflect_effect_method.
  - apply reflect_effect_seq, quiet_rest_table.
  - apply reflect_effect_seq, quiet_rest_view.
Qed.

(** A bind call is its reflect step followed by [setattr]. *)
Lemma invoke_descriptor c st :
  invoke B c st
  = (match descriptor_of B c st with
     | (Return d, st1) => setattr B (resolved_name c) (VTable d) st1
     | (Raise e, st1) => (Raise e, st1)
     end).
Proof.
  destruct c as [table [a|] schema|view [a|] schema]; simpl;
    unfold set_table, set_view, method; unfold_monad;
    repeat case_match; simplify_eq/=; done.
Qed.

Lemma setattr_run name v st :
  ((name ∉ refused_names)
   ∧ setattr B name v st
     = (Return (), State (<[name := v]> (attrs st)) (world st) (trace st)))
  ∨ ((name ∈ refused_names)
     ∧ ∃ d, setattr B name v st = (Raise (ForeignError d), st)).
Proof. unfold setattr. case_bool_decide; eauto. Qed.

(** what the reflect step raises when the object is missing *)
Lemma descriptor_of_missing c st e :
  (descriptor_of B c st).1 = Raise e →
  (∃ msg, e = MissingTableError msg) ∨ (∃ msg, e = MissingViewError msg) →
  is_Some (cache_entry B (descriptor_of B c st).2 (schema_of c)).
Proof.
  intros Hr He.
  assert (Hs : ∀ msg, e ≠ MissingSchemaError msg)
    by (intros msg ->; destruct He as [[? [=]]|[? [=]]]).
  assert (Hf : ∀ d, e ≠ ForeignError d)
    by (intros d ->; destruct He as [[? [=]]|[? [=]]]).
  destruct c as [table a schema|view a schema]; simpl in *; unfold method in *.
  - destruct (attrs st !! "set_table");
      [simpl in Hr; simplify_eq; by destruct He as [[? [=]]|[? [=]]]|].
    destruct (attrs st !! "_reflect_table");
      [simpl in Hr; simplify_eq; by destruct He as [[? [=]]|[? [=]]]|].
    by eapply cache_entry_after_add; [apply quiet_rest_table|..].
  - destruct (attrs st !! "set_view");
      [simpl in Hr; simplify_eq; by destruct He as [[? [=]]|[? [=]]]|].
    destruct (attrs st !! "_reflect_view");
      [simpl in Hr; simplify_eq; by destruct He as [[? [=]]|[? [=]]]|].
    by eapply cache_entry_after_add; [apply quiet_rest_view|..].
Qed.

(** what a whole bind call does to the instance *)
Lemma invoke_effect c st :
  ∃ stm, reflect_effect B (schema_of c) st stm
         ∧ trace (invoke B c st).2 = trace stm
         ∧ (attrs (invoke B c st).2 = attrs stm
            ∨ ((invoke B c st).1 = Return ()
               ∧ ∃ d, attrs (invoke B c st).2
                      = <[resolved_name c := VTable d]> (attrs stm))).
Proof.
  rewrite invoke_descriptor. pose proof (descriptor_of_effect c st) as Heff.
  destruct (descriptor_of B c st) as [[d|e] stm]; simpl in *; [|eauto].
  exists stm. split; [done|].
  destruct (setattr_run (resolved_name c) (VTable d) stm)
    as [[_ ->]|[_ [d' ->]]]; simpl; eauto 10.
Qed.

(** ** Binding *)

(** C6. After two bind calls that both return and resolve to the same
    attribute name (whatever happens to the instance in between), the
    attribute of that name is the descriptor that the reflect step of the
    second call produced; the first call had bound its own descriptor
    there, and nothing else is found under the name. *)
Theorem C6_rebinding_keeps_the_second (c1 c2 : call) (st0 st1 st1' st2 : state B) :
  invoke B c1 st0 = (Return (), st1) →
  rtc (step B) st1 st1' →
  invoke B c2 st1' = (Return (), st2) →
  resolved_name c1 = resolved_name c2 →
  ∃ d1 d2,
    (descriptor_of B c1 st0).1 = Return d1
    ∧ attrs st1 !! resolved_name c1 = Some (VTable d1)
    ∧ (descriptor_of B c2 st1').1 = Return d2
    ∧ attrs st2 !! resolved_name c1 = Some (VTable d2)
    ∧ ∀ v, attrs st2 !! resolved_name c1 = Some v → v = VTable d2.
Proof.
  intros H1 _ H2 Hname. rewrite invoke_descriptor in H1, H2.
  destruct (descriptor_of B c1 st0) as [[d1|e1] sta]; [|done].
  destruct (descriptor_of B c2 st1') as [[d2|e2] stb]; [|done].
  exists d1, d2.
  destruct (setattr_run (resolved_name c1) (VTable d1) sta)
    as [[_ Hs1]|[_ [d Hs1]]]; rewrite Hs1 in H1; [|done].
  destruct (setattr_run (resolved_name c2) (VTable d2) stb)
    as [[_ Hs2]|[_ [d Hs2]]]; rewrite Hs2 in H2; [|done].
  simplify_eq/=. rewrite Hname, !lookup_insert_eq.
  repeat split; try done. by intros v [= <-].
Qed.

(** C9. A bind call that raises [MissingTableError] or [MissingViewError]
    leaves the cache entry of its schema in place; if the entry was not
    there before, this failing call made it ([MetaData] was created during
    the call and the attributes are not what they were). *)
Theorem C9_failed_bind_has_cached_the_schema (c : call) (st st' : state B)
    (e : exn) :
  invoke B c st = (Raise e, st') →
  (∃ msg, e = MissingTableError msg) ∨ (∃ msg, e = MissingViewError msg) →
  ∃ md, cache_entry B st' (schema_of c) = Some md
        ∧ (cache_entry B st (schema_of c) = None →
           attrs st' ≠ attrs st
           ∧ ∃ evs1 evs2,
               trace st' = trace st ++ evs1 ++ EvNewMetaData (schema_of c) :: evs2).
Proof.
  intros Hrun He. rewrite invoke_descriptor in Hrun.
  pose proof (descriptor_of_effect c st) as Heff.
  pose proof (descriptor_of_missing c st e) as Hmiss.
  destruct (descriptor_of B c st) as [[d|e1] st1]; simpl in *.
  { destruct (setattr_run (resolved_name c) (VTable d) st1)
      as [[_ Hs]|[_ [d' Hs]]]; rewrite Hs in Hrun; simplify_eq.
    destruct He as [[? [=]]|[? [=]]]. }
  simplify_eq. destruct (Hmiss eq_refl He) as [md Hmd].
  exists md. split; [done|]. intros Hnone.
  destruct Heff as [evs Ha _ _|m md' evs1 evs2 Hd Hm Ha Ht _ _].
  - rewrite (cache_entry_attrs _ _ _ Ha) in Hmd. congruence.
  - split; [|eauto]. intros Heq.
    rewrite (cache_entry_attrs _ _ _ Heq) in Hmd. congruence.
Qed.

(** ** Existence checks *)

Lemma unshadowed_lookup c st n :
  unshadowed B st c → n ∈ own_methods c → attrs st !! n = None.
Proof. intros H. apply H. Qed.

(** C4, amended.  On an instance whose [engine] attribute still is the
    engine and whose methods up to the schema check ([set_table] and
    [_reflect_table], or [set_view] and [_reflect_view], and
    [_list_schema_from_engine]) are not hidden by attributes of the same
    name, a bind call for a schema that the live schema list lacks raises
    [MissingSchemaError]; the schema query is the only call made to the
    database, so neither the table list nor the view list is asked for,
    and the instance is left as it was.  Nothing is asked of the methods
    that list tables and views, which may be hidden. *)
Theorem C4_missing_schema_raised_first (c : call) (st : state B)
    (h : Handle B) (L : list string) (w1 : World B) :
  is_instance B st →
  schema_check_unshadowed B st c →
  attrs st !! "engine" = Some (VHandle h) →
  get_schema_names B h (world st) = (Ans L, w1) →
  schema_of c ∉ L →
  ∃ msg,
    invoke B c st
    = (Raise (MissingSchemaError msg),
       State (attrs st) w1 (trace st ++ [EvSchemaNames])).
Proof.
  intros Hinst Hun He Hq Hnot.
  destruct (Hinst "server") as [server Hserver]; [set_solver|].
  destruct (Hinst "database") as [database Hdatabase]; [set_solver|].
  destruct c as [table a schema|view a schema]; simpl in Hnot.
  - pose proof (Hun "set_table" ltac:(set_solver)) as H1.
    pose proof (Hun "_reflect_table" ltac:(set_solver)) as H2.
    pose proof (Hun "_list_schema_from_engine" ltac:(set_solver)) as H3.
    eexists. simpl.
    unfold set_table, _reflect_table, check_schema, method,
      _list_schema_from_engine, getattr, as_engine, external.
    unfold_monad. rewrite H1, H2, H3, He, Hq. simpl.
    rewrite bool_decide_eq_false_2 by done.
    simpl. rewrite Hserver. simpl. rewrite Hdatabase. reflexivity.
  - pose proof (Hun "set_view" ltac:(set_solver)) as H1.
    pose proof (Hun "_reflect_view" ltac:(set_solver)) as H2.
    pose proof (Hun "_list_schema_from_engine" ltac:(set_solver)) as H3.
    eexists. simpl.
    unfold set_view, _reflect_view, check_schema, method,
      _list_schema_from_engine, getattr, as_engine, external.
    unfold_monad. rewrite H1, H2, H3, He, Hq. simpl.
    rewrite bool_decide_eq_false_2 by done.
    simpl. rewrite Hserver. simpl. rewrite Hdatabase. reflexivity.
Qed.

Lemma check_schema_passes schema st h L w1 :
  attrs st !! "_list_schema_from_engine" = None →
  attrs st !! "engine" = Some (VHandle h) →
  get_schema_names B h (world st) = (Ans L, w1) →
  schema ∈ L →
  check_schema B schema st
  = (Return (), State (attrs st) w1 (trace st ++ [EvSchemaNames])).
Proof.
  intros H3 He Hq Hin.
  unfold check_schema, method, _list_schema_from_engine, getattr, as_engine,
    external.
  unfold_monad. rewrite H3, He, Hq. simpl.
  by rewrite bool_decide_eq_true_2.
Qed.

(** the state in which the object list is asked for *)
Lemma add_schema_passes schema st m :
  attrs st !! "metadata_dict" = Some (VDict m) →
  ∃ st', add_schema B schema st = (Return (), st')
         ∧ world st' = world_after_cache B m schema (world st)
         ∧ ∀ n, n ≠ "metadata_dict" → attrs st' !! n = attrs st !! n.
Proof.
  intros Hd. unfold world_after_cache.
  destruct (add_schema_run schema st)
    as [(m' & md & Hd' & Hm & ->)|[(m' & Hd' & Hm & ->)|(d & Hr)]].
  - simplify_eq. rewrite Hm. eauto.
  - simplify_eq. rewrite Hm. eexists; split; [done|]. split; [done|].
    intros n Hn. simpl. by rewrite lookup_insert_ne.
  - exfalso. revert Hr.
    unfold add_schema, getattr, as_dict, external, setitem_metadata_dict.
    unfold_monad. rewrite Hd. simpl.
    destruct (m !! schema); [done|].
    destruct (new_MetaData B schema (world st)). simpl. by rewrite Hd.
Qed.

(** C5, amended.  On an instance whose [engine] and [metadata_dict]
    attributes still are the engine and the cache and whose bind methods
    are not hidden by attributes of the same name: if the live schema
    list has the schema and the live table list of that schema lacks the
    table, [set_table] raises [MissingTableError]; likewise [set_view]
    raises [MissingViewError] for a view that the live view list lacks. *)
Theorem C5_missing_object_raises (c : call) (st : state B)
    (h : Handle B) (m : gmap string (MetaData B))
    (L T : list string) (w1 w2 : World B) :
  is_instance B st →
  unshadowed B st c →
  attrs st !! "engine" = Some (VHandle h) →
  attrs st !! "metadata_dict" = Some (VDict m) →
  get_schema_names B h (world st) = (Ans L, w1) →
  schema_of c ∈ L →
  live_names B c h (world_after_cache B m (schema_of c) w1) = (Ans T, w2) →
  object_name c ∉ T →
  ∃ e st', invoke B c st = (Raise e, st') ∧ is_missing_object c e.
Proof.
  intros Hinst Hun He Hd Hq Hin Hq2 Hnot.
  destruct (Hinst "server") as [server Hserver]; [set_solver|].
  destruct (Hinst "database") as [database Hdatabase]; [set_solver|].
  pose proof (Hun "_list_schema_from_engine"
                ltac:(destruct c; set_solver)) as H3.
  pose proof (check_schema_passes (schema_of c) st h L w1 H3 He Hq Hin) as Hcs.
  destruct (add_schema_passes (schema_of c)
              (State (attrs st) w1 (trace st ++ [EvSchemaNames])) m Hd)
    as (st2 & Has & Hw & Hsame).
  simpl in Hw, Hsame.
  destruct c as [table a schema|view a schema]; simpl in *.
  - pose proof (Hun "set_table" ltac:(set_solver)) as H1.
    pose proof (Hun "_reflect_table" ltac:(set_solver)) as H2.
    pose proof (Hun "_list_tables_from_engine" ltac:(set_solver)) as H4.
    unfold set_table, _reflect_table, method. unfold_monad.
    rewrite H1, H2, Hcs, Has.
    unfold _list_tables_from_engine, getattr, as_engine, external.
    unfold_monad.
    rewrite !Hsame, H4, He, Hw, Hq2 by done. simpl.
    rewrite bool_decide_eq_false_2 by done. simpl.
    rewrite !Hsame, Hserver by done. simpl.
    rewrite !Hsame, Hdatabase by done. simpl.
    eexists _, _. split; [reflexivity|done].
  - pose proof (Hun "set_view" ltac:(set_solver)) as H1.
    pose proof (Hun "_reflect_view" ltac:(set_solver)) as H2.
    pose proof (Hun "_list_views_from_engine" ltac:(set_solver)) as H4.
    unfold set_view, _reflect_view, method. unfold_monad.
    rewrite H1, H2, Hcs, Has.
    unfold _list_views_from_engine, getattr, as_engine, external.
    unfold_monad.
    rewrite !Hsame, H4, He, Hw, Hq2 by done. simpl.
    rewrite bool_decide_eq_false_2 by done. simpl.
    rewrite !Hsame, Hserver by done. simpl.
    rewrite !Hsame, Hdatabase by done. simpl.
    eexists _, _. split; [reflexivity|done].
Qed.

(** ** Construction *)

Lemma optional_of_optional (o : option string) :
  optional B (of_optional B o) = o.
Proof. by destruct o. Qed.


(** ** What bind calls never touch *)





Lemma reflect_effect_other schema st stm n :
  reflect_effect B schema st stm → n ≠ "metadata_dict" →
  attrs stm !! n = attrs st !! n.
Proof.
  intros [evs -> _ _|m md evs1 evs2 _ _ -> _ _ _] Hn; [done|].
  by rewrite lookup_insert_ne.
Qed.




(** ** The cache *)







Lemma reflect_effect_entry schema s' st stm md :
  reflect_effect B s' st stm →
  cache_entry B st schema = Some md → cache_entry B stm schema = Some md.
Proof.
  unfold cache_entry.
  intros [evs -> _ _|m md' evs1 evs2 Hd Hm -> _ _ _]; [done|].
  rewrite Hd, lookup_insert_eq. intros Hs.
  rewrite lookup_insert_ne; [done|]. intros ->. congruence.
Qed.


End Running.


(** ** The properties on the shop database *)

Lemma shop_cfg_made :
  DatabaseConfig Shop.backend "srv" "shop" None None 0 = (Return (), Shop.cfg).
Proof. reflexivity. Qed.

Lemma shop_cfg_is_instance : is_instance Shop.backend Shop.cfg.
Proof.
  intros f Hf. unfold fields in Hf.
  repeat (apply elem_of_cons in Hf as [->|Hf]; [by vm_compute; eauto|]).
  by apply elem_of_nil in Hf.
Qed.

Lemma shop_cfg_unshadowed c : unshadowed Shop.backend Shop.cfg c.
Proof.
  intros n Hn. destruct c; unfold own_methods in Hn;
    repeat (apply elem_of_cons in Hn as [->|Hn]; [by vm_compute|]);
    by apply elem_of_nil in Hn.
Qed.

Lemma C4_missing_schema_raised_first_witness :
  let st := Shop.after [SetTable "orders" (Some "_list_tables_from_engine") "dbo"]
              Shop.cfg in
  is_Some (attrs st !! "_list_tables_from_engine")
  ∧ ∃ msg,
      invoke Shop.backend (SetTable "orders" None "x") st
      = (Raise (MissingSchemaError msg),
         State (attrs st) 1 (trace st ++ [EvSchemaNames])).
Proof.
  intros st. split; [by vm_compute; eauto|].
  eapply (C4_missing_schema_raised_first Shop.backend
            (SetTable "orders" None "x") st _ ["dbo"; "sales"] 1).
  - intros f Hf. unfold fields in Hf.
    repeat (apply elem_of_cons in Hf as [->|Hf]; [by vm_compute; eauto|]).
    by apply elem_of_nil in Hf.
  - intros n Hn. unfold schema_check_methods in Hn.
    repeat (apply elem_of_cons in Hn as [->|Hn]; [by vm_compute|]).
    by apply elem_of_nil in Hn.
  - vm_compute. reflexivity.
  - reflexivity.
  - simpl. names.
Defined.

(** C4 as stated fails on an instance that an earlier bind has written
    over.  After [cfg.set_table("engine")] the attribute [engine] is the
    reflected table: the database still has no schema [x], but
    [cfg.set_table("orders", schema="x")] raises what SQLAlchemy raises on
    a table, not [MissingSchemaError].  After
    [cfg.set_table("orders", attr_name="_reflect_table")] the instance
    still lists the schemas itself, without [x], and the same call raises
    because the attribute found under [_reflect_table] is not callable. *)
Lemma C4_instance_written_over :
  let st1 := Shop.after [SetTable "engine" None "dbo"] Shop.cfg in
  let st2 := Shop.after [SetTable "orders" (Some "_reflect_table") "dbo"]
               Shop.cfg in
  (is_instance Shop.backend st1
   ∧ (get_schema_names Shop.backend "any engine" (world st1)).1
     = Ans ["dbo"; "sales"]
   ∧ ¬ ∃ msg, (invoke Shop.backend (SetTable "orders" None "x") st1).1
              = Raise (MissingSchemaError msg))
  ∧ (is_instance Shop.backend st2
     ∧ (method Shop.backend "_list_schema_from_engine"
          (_list_schema_from_engine Shop.backend) st2).1
       = Return ["dbo"; "sales"]
     ∧ ¬ ∃ msg, (invoke Shop.backend (SetTable "orders" None "x") st2).1
                = Raise (MissingSchemaError msg)).
Proof.
  repeat split.
  - intros f Hf. unfold fields in Hf.
    repeat (apply elem_of_cons in Hf as [->|Hf]; [by vm_compute; eauto|]).
    by apply elem_of_nil in Hf.
  - intros [msg Hmsg]. vm_compute in Hmsg. discriminate.
  - intros f Hf. unfold fields in Hf.
    repeat (apply elem_of_cons in Hf as [->|Hf]; [by vm_compute; eauto|]).
    by apply elem_of_nil in Hf.
  - intros [msg Hmsg]. vm_compute in Hmsg. discriminate.
Qed.

(** C5 as stated fails on the same two instances: schema [dbo] is there
    and has no table [nosuch], but [cfg.set_table("nosuch")] does not get
    as far as [MissingTableError]. *)
Lemma C5_instance_written_over :
  let st1 := Shop.after [SetTable "engine" None "dbo"] Shop.cfg in
  let st2 := Shop.after [SetTable "orders" (Some "_reflect_table") "dbo"]
               Shop.cfg in
  ((get_schema_names Shop.backend "any engine" (world st1)).1
   = Ans ["dbo"; "sales"]
   ∧ (get_table_names Shop.backend "any engine" (Some "dbo") (world st1)).1
     = Ans ["orders"; "engine"]
   ∧ ¬ ∃ msg, (invoke Shop.backend (SetTable "nosuch" None "dbo") st1).1
              = Raise (MissingTableError msg))
  ∧ ((method Shop.backend "_list_schema_from_engine"
        (_list_schema_from_engine Shop.backend) st2).1
     = Return ["dbo"; "sales"]
     ∧ (method Shop.backend "_list_tables_from_engine"
          (_list_tables_from_engine Shop.backend (Some "dbo")) st2).1
       = Return ["orders"; "engine"]
     ∧ ¬ ∃ msg, (invoke Shop.backend (SetTable "nosuch" None "dbo") st2).1
                = Raise (MissingTableError msg)).
Proof.
  repeat split; intros [msg Hmsg]; vm_compute in Hmsg; discriminate.
Qed.

Lemma C5_missing_object_raises_witness :
  ∃ e st',
    invoke Shop.backend (SetTable "nosuch" None "dbo") Shop.cfg = (Raise e, st')
    ∧ is_missing_object (SetTable "nosuch" None "dbo") e.
Proof.
  eapply (C5_missing_object_raises Shop.backend
            (SetTable "nosuch" None "dbo") Shop.cfg _ ∅
            ["dbo"; "sales"] ["orders"; "engine"] 0 1).
  - apply shop_cfg_is_instance.
  - apply shop_cfg_unshadowed.
  - vm_compute. reflexivity.
  - vm_compute. reflexivity.
  - reflexivity.
  - simpl. names.
  - reflexivity.
  - simpl. names.
Defined.

Lemma C6_rebinding_keeps_the_second_witness :
  let c1 := SetTable "orders" None "dbo" in
  let c2 := SetTable "orders" None "sales" in
  let st1 := (invoke Shop.backend c1 Shop.cfg).2 in
  let st2 := (invoke Shop.backend c2 st1).2 in
  ∃ d1 d2,
    (descriptor_of Shop.backend c1 Shop.cfg).1 = Return d1
    ∧ attrs st1 !! "orders" = Some (VTable d1)
    ∧ (descriptor_of Shop.backend c2 st1).1 = Return d2
    ∧ attrs st2 !! "orders" = Some (VTable d2)
    ∧ ∀ v, attrs st2 !! "orders" = Some v → v = VTable d2.
Proof.
  intros c1 c2 st1 st2.
  apply (C6_rebinding_keeps_the_second Shop.backend c1 c2 Shop.cfg st1 st1 st2).
  - reflexivity.
  - apply rtc_refl.
  - reflexivity.
  - reflexivity.
Defined.

Lemma C9_failed_bind_has_cached_the_schema_witness :
  let c := SetTable "nosuch" None "dbo" in
  let st' := (invoke Shop.backend c Shop.cfg).2 in
  ∃ md, cache_entry Shop.backend st' "dbo" = Some md
        ∧ (cache_entry Shop.backend Shop.cfg "dbo" = None →
           attrs st' ≠ attrs Shop.cfg
           ∧ ∃ evs1 evs2,
               trace st' = trace Shop.cfg ++ evs1 ++ EvNewMetaData "dbo" :: evs2).
Proof.
  intros c st'.
  apply (C9_failed_bind_has_cached_the_schema Shop.backend c Shop.cfg st'
           (MissingTableError "View: nosuch is missing from srv.shop.dbo")).
  - reflexivity.
  - left. by eexists.
Defined.





(** * Further properties of the code *)

(** ** More on the connection-string builder *)

(** X1. The builder fails on one combination only, a password without a
    user id, and with [ConnectionStringParsingError] only; on every other
    combination it returns a string. *)
Theorem builder_returns_unless_lone_password
    (server database : string) (uid pwd : option string) :
  ((∃ s, generate_sql_connection_string server database uid pwd = Return s)
   ↔ ¬ (uid = None ∧ is_Some pwd))
  ∧ ∀ e, generate_sql_connection_string server database uid pwd = Raise e →
         e = ConnectionStringParsingError ∧ uid = None ∧ is_Some pwd.
Proof.
  destruct uid as [uid|], pwd as [pwd|]; simpl; split;
    try (intros e [=]; subst; eauto; fail).
  - split; [intros _ [[=] _] | eauto].
  - split; [intros _ [[=] _] | eauto].
  - split; [by intros [s [=]] | intros []; eauto].
  - split; [intros _ [_ [? [=]]] | eauto].
Qed.

Lemma append_inv_head (p x y : string) : p +:+ x = p +:+ y → x = y.
Proof.
  induction p as [|a p IH]; [done|].
  rewrite !append_cons. intros [= H]. by apply IH.
Qed.

(** two texts without the separator, each followed by the separator *)
Lemma append_cut_inj (c : ascii) (a : string) : ∀ a' x x',
  char_in c a = false → char_in c a' = false →
  a +:+ String c x = a' +:+ String c x' → a = a' ∧ x = x'.
Proof.
  induction a as [|b a IH]; intros [|b' a'] x x' Ha Ha'.
  - by intros [= ->].
  - rewrite append_cons. intros [= <- _]. simpl in Ha'.
    by rewrite Ascii.eqb_refl in Ha'.
  - rewrite append_cons. intros [= -> _]. simpl in Ha.
    by rewrite Ascii.eqb_refl in Ha.
  - rewrite !append_cons. intros [= <- H]. simpl in Ha, Ha'.
    apply orb_false_elim in Ha as [_ Ha].
    apply orb_false_elim in Ha' as [_ Ha'].
    by destruct (IH a' x x' Ha Ha' H) as [-> ->].
Qed.

(** every string that the builder returns has one shape *)
Lemma builder_shape (server database : string) (uid pwd : option string) s :
  generate_sql_connection_string server database uid pwd = Return s →
  s = "DRIVER={SQL Server};SERVER="
      +:+ server
      +:+ String ";" ("DATABASE="
      +:+ database
      +:+ String ";" ("UID="
      +:+ default "" uid
      +:+ String ";" (match pwd with
                      | None => "Trusted_Connection=Yes"
                      | Some p => "PWD=" +:+ p
                      end))).
Proof. destruct uid, pwd; simpl; intros [= <-]; reflexivity. Qed.

(** X2. The connection string tells the targets apart: when server,
    database and user id hold no semicolon, two calls that return the
    same string were given the same server, the same database, the same
    password and the same user id (an absent user id counting as the
    empty one). *)
Theorem builder_injective_without_semicolons
    (server1 database1 server2 database2 : string)
    (uid1 pwd1 uid2 pwd2 : option string) (s : string) :
  char_in ";" server1 = false → char_in ";" server2 = false →
  char_in ";" database1 = false → char_in ";" database2 = false →
  char_in ";" (default "" uid1) = false →
  char_in ";" (default "" uid2) = false →
  generate_sql_connection_string server1 database1 uid1 pwd1 = Return s →
  generate_sql_connection_string server2 database2 uid2 pwd2 = Return s →
  server1 = server2 ∧ database1 = database2
  ∧ default "" uid1 = default "" uid2 ∧ pwd1 = pwd2.
Proof.
  intros Hs1 Hs2 Hd1 Hd2 Hu1 Hu2 H1%builder_shape H2%builder_shape.
  rewrite H1 in H2. clear H1.
  apply append_inv_head in H2.
  apply append_cut_inj in H2 as [-> H2]; [|done..].
  apply append_inv_head in H2.
  apply append_cut_inj in H2 as [-> H2]; [|done..].
  apply append_inv_head in H2.
  apply append_cut_inj in H2 as [-> H2]; [|done..].
  repeat split.
  destruct pwd1 as [p1|], pwd2 as [p2|]; try done.
  by apply append_inv_head in H2 as ->.
Qed.

Lemma builder_injective_without_semicolons_witness :
  "srv" = "srv" ∧ "shop" = "shop"
  ∧ default "" (Some "") = default "" (@None string) ∧ @None string = None.
Proof.
  apply (builder_injective_without_semicolons "srv" "shop" "srv" "shop"
           (Some "") None None None
           "DRIVER={SQL Server};SERVER=srv;DATABASE=shop;UID=;Trusted_Connection=Yes");
    reflexivity.
Defined.

(** ** More on the connection factory *)

Section Factory.
Context (B : Backend).

#[local] Existing Instance M_ret.
#[local] Existing Instance M_bind.

Ltac unfold_monad :=
  unfold mbind, M_bind, mret, M_ret, bind, ret, raise, lift in *.

(** X3. With a recognised driver tag and an acceptable combination of
    credentials, a library that cannot be imported makes the factory
    raise [ImportError] with the message that names it; nothing is
    opened. *)
Theorem factory_missing_library
    (server database : string) (uid pwd : option string) (driver : string)
    (st : state B) :
  driver ∈ ["sqlalchemy"; "pyodbc"; "pymssql"] →
  (uid = None → pwd = None) →
  importable B driver (world st) = false →
  generate_sql_connection B server database uid pwd driver st
  = (Raise (ImportError ("Must have " +:+ driver +:+ " installed to use "
                         +:+ driver +:+ " driver")), st).
Proof.
  intros Hdriver Hcred Himp.
  assert (∃ cs, generate_sql_connection_string server database uid pwd
                = Return cs) as [cs Hcs].
  { destruct pwd as [pwd|], uid as [uid|]; simpl; eauto.
    by specialize (Hcred eq_refl). }
  unfold generate_sql_connection, import_or_raise. unfold_monad.
  rewrite Hcs.
  repeat (apply elem_of_cons in Hdriver as [->|Hdriver];
          [simpl; by rewrite Himp|]).
  by apply elem_of_nil in Hdriver.
Qed.

(** X4. The factory never touches the attributes of an instance and makes
    at most one call to a backend, which is one that opens an engine or a
    connection; when it raises one of the package's own exceptions or
    [ImportError], it has made none and the world is as it was. *)
Theorem factory_opens_at_most_one_handle
    (server database : string) (uid pwd : option string) (driver : string)
    (st : state B) :
  let r := generate_sql_connection B server database uid pwd driver st in
  attrs r.2 = attrs st
  ∧ (r.2 = st
     ∨ ∃ ev, trace r.2 = trace st ++ [ev] ∧ opens_handle ev = true)
  ∧ ∀ e, r.1 = Raise e → (∀ d, e ≠ ForeignError d) → r.2 = st.
Proof.
  unfold generate_sql_connection, import_or_raise, foreign, external.
  unfold_monad.
  destruct (generate_sql_connection_string server database uid pwd)
    as [cs|e0]; simpl; [|by eauto].
  repeat case_decide; simpl;
    try (destruct (importable B _ (world st)); simpl);
    try (split; [done|]; split; [by left|]; done).
  - destruct (quote_plus B cs) as [q|d]; simpl.
    + destruct (create_engine B _ (world st)) as [[h|d] w']; simpl;
        (split; [done|]; split; [right; eauto|]);
        intros e [=]; subst; intros Hne; by destruct (Hne d).
    + split; [done|]. split; [by left|].
      intros e [=]; subst; intros Hne; by destruct (Hne d).
  - destruct (pyodbc_connect B _ (world st)) as [[h|d] w']; simpl;
      (split; [done|]; split; [right; eauto|]);
      intros e [=]; subst; intros Hne; by destruct (Hne d).
  - destruct uid as [u|], pwd as [p|]; unfold external;
      destruct (pymssql_connect B _ _ _ (world st)) as [[h|d] w']; simpl;
      (split; [done|]; split; [right; eauto|]);
      intros e [=]; subst; intros Hne; by destruct (Hne d).
Qed.

(** X5. With the [pymssql] driver a user id without a password is
    ignored: the call does exactly what the call without any credentials
    does (it connects with integrated authentication). *)
Theorem pymssql_ignores_lone_uid
    (server database uid : string) (st : state B) :
  generate_sql_connection B server database (Some uid) None "pymssql" st
  = generate_sql_connection B server database None None "pymssql" st
  ∧ (importable B "pymssql" (world st) = true →
     generate_sql_connection B server database (Some uid) None "pymssql" st
     = external B (EvPymssqlConnect server database None)
         (pymssql_connect B server database None) st).
Proof.
  split; [reflexivity|]. intros Himp.
  unfold generate_sql_connection, import_or_raise. unfold_monad. simpl.
  by rewrite Himp.
Qed.

(** ** More on construction *)

(** X6. When the constructor raises, the exception is the one that the
    factory raised for the [sqlalchemy] driver: the parsing error for a
    password without user id, [ImportError] when SQLAlchemy cannot be
    imported, the failure of [quote_plus] on the connection string (in
    these three cases nothing was opened and the world is as it was), or
    the failure of [create_engine], called once with the quoted string; it
    is never the unknown-driver error, and no [engine] attribute has been
    stored. *)
Theorem constructor_failure
    (server database : string) (uid pwd : option string) (w : World B)
    (e : exn) (st : state B) :
  DatabaseConfig B server database uid pwd w = (Raise e, st) →
  attrs st !! "engine" = None
  ∧ (∀ msg, e ≠ UnknownDatabaseDriverError msg)
  ∧ ((e = ConnectionStringParsingError ∧ uid = None ∧ is_Some pwd
      ∧ trace st = [] ∧ world st = w)
     ∨ (e = ImportError "Must have sqlalchemy installed to use sqlalchemy driver"
        ∧ (uid = None → pwd = None)
        ∧ importable B "sqlalchemy" w = false
        ∧ trace st = [] ∧ world st = w)
     ∨ (∃ cs d,
          generate_sql_connection_string server database uid pwd = Return cs
          ∧ importable B "sqlalchemy" w = true
          ∧ quote_plus B cs = Fail d
          ∧ e = ForeignError d
          ∧ trace st = [] ∧ world st = w)
     ∨ (∃ cs q d,
          generate_sql_connection_string server database uid pwd = Return cs
          ∧ importable B "sqlalchemy" w = true
          ∧ quote_plus B cs = Ans q
          ∧ (create_engine B ("mssql+pyodbc:///?odbc_connect=" +:+ q) w).1
            = Fail d
          ∧ e = ForeignError d
          ∧ trace st
            = [EvCreateEngine ("mssql+pyodbc:///?odbc_connect=" +:+ q)])).
Proof.
  unfold DatabaseConfig, __init__, setattr, method, _create_engine, getattr,
    generate_sql_connection, import_or_raise, foreign, external.
  unfold_monad.
  rewrite !bool_decide_eq_false_2 by names. simpl.
  repeat (first [ rewrite lookup_insert_eq
                 | rewrite lookup_insert_ne by discriminate
                 | rewrite lookup_empty ]; simpl).
  rewrite !optional_of_optional.
  assert (Hno : ∀ (a : gmap string (value B)) v1 v2 v3 v4 v5,
            (<["metadata_dict" := v5]> (<["pwd" := v4]> (<["uid" := v3]>
               (<["database" := v2]> (<["server" := v1]> a)))))
            !! "engine" = a !! "engine").
  { intros. by rewrite !lookup_insert_ne by discriminate. }
  destruct (generate_sql_connection_string server database uid pwd)
    as [cs|e0] eqn:Hcs; simpl.
  - assert (Hcred : uid = None → pwd = None).
    { intros ->. destruct pwd; [discriminate Hcs|done]. }
    destruct (importable B "sqlalchemy" w) eqn:Himp; simpl.
    + destruct (quote_plus B cs) as [q|d] eqn:Hq; simpl.
      * destruct (create_engine B _ w) as [[h|d] w'] eqn:Hce; simpl; [done|].
        intros [= <- <-]. simpl. rewrite Hno, lookup_empty.
        split; [done|]. split; [done|]. right; right; right.
        exists cs, q, d. by rewrite Hce.
      * intros [= <- <-]. simpl. rewrite Hno, lookup_empty.
        split; [done|]. split; [done|]. right; right; left.
        by exists cs, d.
    + intros [= <- <-]. simpl. rewrite Hno, lookup_empty.
      split; [done|]. split; [done|]. right; left. done.
  - intros [= <- <-]. simpl. rewrite Hno, lookup_empty. split; [done|].
    destruct uid, pwd; simpl in Hcs; simplify_eq.
    split; [done|]. left. eauto 10.
Qed.


End Factory.

Lemma pymssql_ignores_lone_uid_witness :
  let st := @State Shop.all_drivers ∅ 0 [] in
  importable Shop.all_drivers "pymssql" (world st) = true
  ∧ generate_sql_connection Shop.all_drivers "srv" "shop" (Some "ann") None
      "pymssql" st
    = generate_sql_connection Shop.all_drivers "srv" "shop" None None
        "pymssql" st
  ∧ generate_sql_connection Shop.all_drivers "srv" "shop" (Some "ann") None
      "pymssql" st
    = external Shop.all_drivers (EvPymssqlConnect "srv" "shop" None)
        (pymssql_connect Shop.all_drivers "srv" "shop" None) st
  ∧ external Shop.all_drivers (EvPymssqlConnect "srv" "shop" None)
      (pymssql_connect Shop.all_drivers "srv" "shop" None) st
    = (Return "pymssql:srv/shop",
       @State Shop.all_drivers ∅ 0 [EvPymssqlConnect "srv" "shop" None]).
Proof.
  intros st.
  destruct (pymssql_ignores_lone_uid Shop.all_drivers "srv" "shop" "ann" st)
    as [Hsame Hconnect].
  split; [reflexivity|]. split; [exact Hsame|].
  split; [apply Hconnect; reflexivity | reflexivity].
Defined.

Lemma constructor_failure_witness :
  let r := DatabaseConfig Shop.backend "srv" "shop" None (Some "pw") 0 in
  let e := ConnectionStringParsingError in
  attrs r.2 !! "engine" = None
  ∧ (∀ msg, e ≠ UnknownDatabaseDriverError msg)
  ∧ ((e = ConnectionStringParsingError
      ∧ @None string = None ∧ is_Some (Some "pw")
      ∧ trace r.2 = [] ∧ world r.2 = 0)
     ∨ (e = ImportError "Must have sqlalchemy installed to use sqlalchemy driver"
        ∧ (@None string = None → Some "pw" = None)
        ∧ importable Shop.backend "sqlalchemy" 0 = false
        ∧ trace r.2 = [] ∧ world r.2 = 0)
     ∨ (∃ cs d,
          generate_sql_connection_string "srv" "shop" None (Some "pw")
          = Return cs
          ∧ importable Shop.backend "sqlalchemy" 0 = true
          ∧ quote_plus Shop.backend cs = Fail d
          ∧ e = ForeignError d
          ∧ trace r.2 = [] ∧ world r.2 = 0)
     ∨ (∃ cs q d,
          generate_sql_connection_string "srv" "shop" None (Some "pw")
          = Return cs
          ∧ importable Shop.backend "sqlalchemy" 0 = true
          ∧ quote_plus Shop.backend cs = Ans q
          ∧ (create_engine Shop.backend
               ("mssql+pyodbc:///?odbc_connect=" +:+ q) 0).1
            = Fail d
          ∧ e = ForeignError d
          ∧ trace r.2
            = [EvCreateEngine ("mssql+pyodbc:///?odbc_connect=" +:+ q)])).
Proof.
  intros r e.
  apply (constructor_failure Shop.backend "srv" "shop" None (Some "pw") 0
           e r.2).
  reflexivity.
Defined.




(** ** More on binding *)

Section Binding.
Context (B : Backend).
Implicit Types (st : state B) (c : call).

#[local] Existing Instance M_ret.
#[local] Existing Instance M_bind.

Ltac unfold_monad :=
  unfold mbind, M_bind, mret, M_ret, bind, ret, raise, lift in *.

(** *** The three steps of a bind call, case by case *)

(** [check_schema]: the schema is in the answer, or it is not, or
    something else went wrong (no callable method, no engine, no answer,
    no attribute to format) *)
Lemma check_schema_cases schema st :
  (∃ h L w1,
     attrs st !! "engine" = Some (VHandle h)
     ∧ get_schema_names B h (world st) = (Ans L, w1)
     ∧ (schema ∈ L)
     ∧ check_schema B schema st
       = (Return (), State (attrs st) w1 (trace st ++ [EvSchemaNames])))
  ∨ (∃ h L w1 server database,
       attrs st !! "engine" = Some (VHandle h)
       ∧ get_schema_names B h (world st) = (Ans L, w1)
       ∧ (schema ∉ L)
       ∧ attrs st !! "server" = Some server
       ∧ attrs st !! "database" = Some database
       ∧ check_schema B schema st
         = (Raise (MissingSchemaError
                     ("Schema: " +:+ schema +:+ " is missing from "
                      +:+ fmt B server +:+ "." +:+ fmt B database)),
            State (attrs st) w1 (trace st ++ [EvSchemaNames])))
  ∨ (∃ d w evs,
       check_schema B schema st
       = (Raise (ForeignError d), State (attrs st) w (trace st ++ evs))
       ∧ (evs = [] ∨ evs = [EvSchemaNames])).
Proof.
  unfold check_schema, method, _list_schema_from_engine, getattr, as_engine,
    external.
  unfold_monad.
  destruct (attrs st !! "_list_schema_from_engine").
  { right; right. exists ("_list_schema_from_engine" +:+ " is not callable"),
      (world st), []. rewrite app_nil_r. destruct st; eauto. }
  destruct (attrs st !! "engine") as [[| | |h|]|] eqn:He; simpl;
    try (right; right; eexists _, (world st), []; rewrite app_nil_r;
         destruct st; by eauto).
  destruct (get_schema_names B h (world st)) as [[L|d] w1] eqn:Hq; simpl.
  2:{ right; right. eexists _, w1, [EvSchemaNames]. eauto. }
  case_bool_decide as Hin; simpl; [left; eauto 10|].
  destruct (attrs st !! "server") as [server|] eqn:Hs; simpl.
  2:{ right; right. eexists _, w1, [EvSchemaNames]. eauto. }
  destruct (attrs st !! "database") as [database|] eqn:Hdb; simpl.
  2:{ right; right. eexists _, w1, [EvSchemaNames]. eauto. }
  right; left. eauto 15.
Qed.

(** looking the object up and reflecting it; the table and the view
    variant differ in the method, the list that is asked for and the
    exception *)
Lemma object_step_cases (mname : string) (ev : event)
    (oracle : Handle B → World B → answer (list string) * World B)
    (err : string → exn) (name schema : string) st :
  let step : M B (Table B) :=
    xs ← method B mname
           (engine ← getattr B "engine";
            h ← as_engine B engine;
            external B ev (oracle h));
    if bool_decide (name ∈ xs) then make_Table B name schema
    else
      server ← getattr B "server";
      database ← getattr B "database";
      raise B (err ("View: " +:+ name +:+ " is missing from "
                    +:+ fmt B server +:+ "." +:+ fmt B database
                    +:+ "." +:+ schema)) in
  (∃ h T w2 m md t w3,
     attrs st !! "engine" = Some (VHandle h)
     ∧ oracle h (world st) = (Ans T, w2)
     ∧ (name ∈ T)
     ∧ attrs st !! "metadata_dict" = Some (VDict m)
     ∧ m !! schema = Some md
     ∧ reflect_Table B name md h w2 = (Ans t, w3)
     ∧ step st
       = (Return t,
          State (attrs st) w3 (trace st ++ [ev; EvReflect name schema])))
  ∨ (∃ h T w2 server database,
       attrs st !! "engine" = Some (VHandle h)
       ∧ oracle h (world st) = (Ans T, w2)
       ∧ (name ∉ T)
       ∧ attrs st !! "server" = Some server
       ∧ attrs st !! "database" = Some database
       ∧ step st
         = (Raise (err ("View: " +:+ name +:+ " is missing from "
                        +:+ fmt B server +:+ "." +:+ fmt B database
                        +:+ "." +:+ schema)),
            State (attrs st) w2 (trace st ++ [ev])))
  ∨ (∃ d w evs,
       step st = (Raise (ForeignError d), State (attrs st) w (trace st ++ evs))
       ∧ (evs = [] ∨ evs = [ev] ∨ evs = [ev; EvReflect name schema])).
Proof.
  intros step. subst step.
  unfold method, make_Table, getattr, as_engine, as_dict, external.
  unfold_monad.
  destruct (attrs st !! mname).
  { right; right. eexists _, (world st), []. rewrite app_nil_r.
    destruct st; eauto. }
  destruct (attrs st !! "engine") as [[| | |h|]|] eqn:He; simpl;
    try (right; right; eexists _, (world st), []; rewrite app_nil_r;
         destruct st; by eauto).
  destruct (oracle h (world st)) as [[T|d] w2] eqn:Hq; simpl.
  2:{ right; right. eexists _, w2, [ev]. eauto. }
  case_bool_decide as Hin; simpl.
  - destruct (attrs st !! "metadata_dict") as [[| |m| |]|] eqn:Hd; simpl;
      try (right; right; eexists _, w2, [ev]; by eauto).
    destruct (m !! schema) as [md|] eqn:Hm; simpl;
      [|right; right; eexists _, w2, [ev]; by eauto].
    rewrite He. simpl.
    destruct (reflect_Table B name md h w2) as [[t|d] w3] eqn:Hr; simpl.
    + left. exists h, T, w2, m, md, t, w3.
      by rewrite <- app_assoc.
    + right; right. eexists _, w3, [ev; EvReflect name schema].
      rewrite <- app_assoc. eauto.
  - destruct (attrs st !! "server") as [server|] eqn:Hs; simpl.
    2:{ right; right. eexists _, w2, [ev]. eauto. }
    destruct (attrs st !! "database") as [database|] eqn:Hdb; simpl.
    2:{ right; right. eexists _, w2, [ev]. eauto. }
    right; left. eauto 15.
Qed.

(** The reflect step as a whole: it fails on something foreign, or the
    schema is missing, or the object is missing, or it returns the
    reflected table. *)
Lemma reflect_walk (mname : string) (ev : event)
    (oracle : Handle B → World B → answer (list string) * World B)
    (err : string → exn) (name schema : string) st :
  let run : result (Table B) * state B :=
    (check_schema B schema;;
     add_schema B schema;;
     xs ← method B mname
            (engine ← getattr B "engine";
             h ← as_engine B engine;
             external B ev (oracle h));
     if bool_decide (name ∈ xs) then make_Table B name schema
     else
       server ← getattr B "server";
       database ← getattr B "database";
       raise B (err ("View: " +:+ name +:+ " is missing from "
                     +:+ fmt B server +:+ "." +:+ fmt B database
                     +:+ "." +:+ schema))) st in
  (∃ d st' evs,
     run = (Raise (ForeignError d), st')
     ∧ trace st' = trace st ++ evs
     ∧ (evs `prefix_of` [EvSchemaNames; ev; EvReflect name schema]
        ∨ evs `prefix_of`
            [EvSchemaNames; EvNewMetaData schema; ev; EvReflect name schema]))
  ∨ (∃ h L w1 server database,
       attrs st !! "engine" = Some (VHandle h)
       ∧ get_schema_names B h (world st) = (Ans L, w1)
       ∧ (schema ∉ L)
       ∧ attrs st !! "server" = Some server
       ∧ attrs st !! "database" = Some database
       ∧ run = (Raise (MissingSchemaError
                         ("Schema: " +:+ schema +:+ " is missing from "
                          +:+ fmt B server +:+ "." +:+ fmt B database)),
                State (attrs st) w1 (trace st ++ [EvSchemaNames])))
  ∨ (∃ h L w1 m T w2 server database,
       attrs st !! "engine" = Some (VHandle h)
       ∧ get_schema_names B h (world st) = (Ans L, w1)
       ∧ (schema ∈ L)
       ∧ attrs st !! "metadata_dict" = Some (VDict m)
       ∧ oracle h (world_after_cache B m schema w1) = (Ans T, w2)
       ∧ (name ∉ T)
       ∧ attrs st !! "server" = Some server
       ∧ attrs st !! "database" = Some database
       ∧ run = (Raise (err ("View: " +:+ name +:+ " is missing from "
                            +:+ fmt B server +:+ "." +:+ fmt B database
                            +:+ "." +:+ schema)),
                State (attrs_after_cache B m schema w1 (attrs st)) w2
                  (trace st ++ EvSchemaNames
                     :: creation_events B m schema ++ [ev])))
  ∨ (∃ h L w1 m T w2 t w3,
       attrs st !! "engine" = Some (VHandle h)
       ∧ get_schema_names B h (world st) = (Ans L, w1)
       ∧ (schema ∈ L)
       ∧ attrs st !! "metadata_dict" = Some (VDict m)
       ∧ oracle h (world_after_cache B m schema w1) = (Ans T, w2)
       ∧ (name ∈ T)
       ∧ reflect_Table B name (cached_MetaData B m schema w1) h w2 = (Ans t, w3)
       ∧ run = (Return t,
                State (attrs_after_cache B m schema w1 (attrs st)) w3
                  (trace st ++ EvSchemaNames
                     :: creation_events B m schema
                     ++ [ev; EvReflect name schema]))).
Proof.
  intros run. subst run. unfold_monad.
  destruct (check_schema_cases schema st)
    as [(h & L & w1 & He & Hq & Hin & ->)
       |[(h & L & w1 & server & database & He & Hq & Hin & Hs & Hdb & ->)
        |(d & w & evs & -> & Hevs)]].
  3:{ left. eexists d, _, evs. split; [done|]. split; [done|].
      left. destruct Hevs as [->| ->]; by eexists. }
  2:{ right; left. eauto 15. }
  set (st1 := State (attrs st) w1 (trace st ++ [EvSchemaNames])).
  destruct (add_schema_run B schema st1)
    as [(m & md & Hd & Hm & ->)|[(m & Hd & Hm & ->)|(d & ->)]].
  3:{ left. eexists d, _, [EvSchemaNames]. split; [done|]. split; [done|].
      left. by eexists. }
  - (* the entry was there *)
    pose proof (object_step_cases mname ev oracle err name schema st1)
      as Hstep.
    cbv zeta in Hstep. unfold_monad.
    destruct Hstep
      as [(h' & T & w2 & m' & md' & t & w3 & He' & Hq2 & HT & Hd' & Hm' & Hr & ->)
         |[(h' & T & w2 & server & database & He' & Hq2 & HT & Hs & Hdb & ->)
          |(d & w & evs & -> & Hevs)]];
      simpl in *; simplify_eq.
    + right; right; right. exists h, L, w1, m, T, w2, t, w3.
      unfold world_after_cache, attrs_after_cache, cached_MetaData,
        creation_events. rewrite Hm. simpl.
      rewrite <- app_assoc. eauto 15.
    + right; right; left. exists h, L, w1, m, T, w2, server, database.
      unfold world_after_cache, attrs_after_cache, creation_events.
      rewrite Hm. simpl. rewrite <- app_assoc. eauto 15.
    + left. eexists d, _, ([EvSchemaNames] ++ evs).
      split; [done|]. split; [simpl; by rewrite <- app_assoc|].
      left. destruct Hevs as [->|[->| ->]]; by eexists.
  - (* the entry is made *)
    set (st2 := State _ _ _).
    pose proof (object_step_cases mname ev oracle err name schema st2)
      as Hstep.
    cbv zeta in Hstep. unfold_monad.
    destruct Hstep
      as [(h' & T & w2 & m' & md' & t & w3 & He' & Hq2 & HT & Hd' & Hm' & Hr & ->)
         |[(h' & T & w2 & server & database & He' & Hq2 & HT & Hs & Hdb & ->)
          |(d & w & evs & -> & Hevs)]];
      subst st1 st2; simpl in *.
    + rewrite lookup_insert_ne in He' by discriminate.
      rewrite lookup_insert_eq in Hd'. simplify_eq.
      rewrite lookup_insert_eq in Hm'. simplify_eq.
      right; right; right. exists h, L, w1, m, T, w2, t, w3.
      unfold world_after_cache, attrs_after_cache, cached_MetaData,
        creation_events. rewrite Hm. simpl.
      rewrite <- !app_assoc. eauto 15.
    + rewrite lookup_insert_ne in He' by discriminate.
      rewrite lookup_insert_ne in Hs by discriminate.
      rewrite lookup_insert_ne in Hdb by discriminate. simplify_eq.
      right; right; left. exists h, L, w1, m, T, w2, server, database.
      unfold world_after_cache, attrs_after_cache, creation_events.
      rewrite Hm. simpl. rewrite <- !app_assoc. eauto 15.
    + left. eexists d, _, ([EvSchemaNames; EvNewMetaData schema] ++ evs).
      split; [done|]. split; [simpl; by rewrite <- !app_assoc|].
      right. destruct Hevs as [->|[->| ->]]; by eexists.
Qed.

(** Every bind call ends in one of four ways. *)
Lemma bind_cases c st :
  (∃ d st' evs,
     invoke B c st = (Raise (ForeignError d), st')
     ∧ trace st' = trace st ++ evs
     ∧ (evs `prefix_of`
          [EvSchemaNames; names_event c;
           EvReflect (object_name c) (schema_of c)]
        ∨ evs `prefix_of`
            [EvSchemaNames; EvNewMetaData (schema_of c); names_event c;
             EvReflect (object_name c) (schema_of c)]))
  ∨ (∃ h L w1 server database,
       attrs st !! "engine" = Some (VHandle h)
       ∧ get_schema_names B h (world st) = (Ans L, w1)
       ∧ (schema_of c ∉ L)
       ∧ attrs st !! "server" = Some server
       ∧ attrs st !! "database" = Some database
       ∧ invoke B c st
         = (Raise (MissingSchemaError
                     (missing_schema_message B c server database)),
            State (attrs st) w1 (trace st ++ [EvSchemaNames])))
  ∨ (∃ h L w1 m T w2 server database,
       attrs st !! "engine" = Some (VHandle h)
       ∧ get_schema_names B h (world st) = (Ans L, w1)
       ∧ (schema_of c ∈ L)
       ∧ attrs st !! "metadata_dict" = Some (VDict m)
       ∧ live_names B c h (world_after_cache B m (schema_of c) w1) = (Ans T, w2)
       ∧ (object_name c ∉ T)
       ∧ attrs st !! "server" = Some server
       ∧ attrs st !! "database" = Some database
       ∧ invoke B c st
         = (Raise (object_error c
                     (missing_object_message B c server database)),
            State (attrs_after_cache B m (schema_of c) w1 (attrs st)) w2
              (trace st ++ EvSchemaNames
                 :: creation_events B m (schema_of c) ++ [names_event c])))
  ∨ (∃ h L w1 m T w2 t w3,
       attrs st !! "engine" = Some (VHandle h)
       ∧ get_schema_names B h (world st) = (Ans L, w1)
       ∧ (schema_of c ∈ L)
       ∧ attrs st !! "metadata_dict" = Some (VDict m)
       ∧ live_names B c h (world_after_cache B m (schema_of c) w1) = (Ans T, w2)
       ∧ (object_name c ∈ T)
       ∧ reflect_Table B (object_name c)
           (cached_MetaData B m (schema_of c) w1) h w2 = (Ans t, w3)
       ∧ (resolved_name c ∉ refused_names)
       ∧ invoke B c st
         = (Return (),
            State (<[resolved_name c := VTable t]>
                     (attrs_after_cache B m (schema_of c) w1 (attrs st)))
              w3 (trace st ++ protocol B c m))).
Proof.
  rewrite invoke_descriptor.
  assert (Hfull : ∀ m : gmap string (MetaData B),
            protocol B c m
            = [EvSchemaNames; names_event c;
               EvReflect (object_name c) (schema_of c)]
            ∨ protocol B c m
              = [EvSchemaNames; EvNewMetaData (schema_of c); names_event c;
                 EvReflect (object_name c) (schema_of c)]).
  { intros m. unfold protocol, creation_events.
    destruct (m !! schema_of c); eauto. }
  destruct c as [table a schema|view a schema]; simpl in *;
    unfold method.
  - destruct (attrs st !! "set_table").
    { left. eexists _, st, []. rewrite app_nil_r.
      split; [done|]. split; [done|]. left. by eexists. }
    destruct (attrs st !! "_reflect_table").
    { left. eexists _, st, []. rewrite app_nil_r.
      split; [done|]. split; [done|]. left. by eexists. }
    pose proof (reflect_walk "_list_tables_from_engine"
                  (EvTableNames (Some schema))
                  (λ h, get_table_names B h (Some schema))
                  MissingTableError table schema st) as Hw.
    cbv zeta in Hw.
    destruct Hw
      as [(d & st' & evs & Hrun & Ht & Hp)
         |[(h & L & w1 & server & database & He & Hq & Hin & Hs & Hdb & Hrun)
          |[(h & L & w1 & m & T & w2 & server & database
             & He & Hq & Hin & Hd & Hq2 & HT & Hs & Hdb & Hrun)
           |(h & L & w1 & m & T & w2 & t & w3
             & He & Hq & Hin & Hd & Hq2 & HT & Hr & Hrun)]]];
      match type of Hrun with
      | ?l = _ => change l with (_reflect_table B table schema st) in Hrun
      end;
      rewrite Hrun.
    + left. eauto 10.
    + right; left. eauto 15.
    + right; right; left. exists h, L, w1, m, T, w2, server, database.
      eauto 15.
    + destruct (setattr_run B (default table a) (VTable t)
                  (State (attrs_after_cache B m schema w1 (attrs st)) w3
                     (trace st ++ EvSchemaNames
                        :: creation_events B m schema
                        ++ [EvTableNames (Some schema);
                            EvReflect table schema])))
        as [[Hok Hset]|[Hbad [d Hset]]].
      * right; right; right. exists h, L, w1, m, T, w2, t, w3.
        destruct a; simpl in *; rewrite Hset; eauto 15.
      * left. eexists d, _, (protocol B (SetTable table a schema) m).
        destruct a; simpl in *; rewrite Hset;
          (split; [done|]); (split; [done|]);
          destruct (Hfull m) as [-> | ->]; eauto.
  - destruct (attrs st !! "set_view").
    { left. eexists _, st, []. rewrite app_nil_r.
      split; [done|]. split; [done|]. left. by eexists. }
    destruct (attrs st !! "_reflect_view").
    { left. eexists _, st, []. rewrite app_nil_r.
      split; [done|]. split; [done|]. left. by eexists. }
    pose proof (reflect_walk "_list_views_from_engine"
                  (EvViewNames (Some schema))
                  (λ h, get_view_names B h (Some schema))
                  MissingViewError view schema st) as Hw.
    cbv zeta in Hw.
    destruct Hw
      as [(d & st' & evs & Hrun & Ht & Hp)
         |[(h & L & w1 & server & database & He & Hq & Hin & Hs & Hdb & Hrun)
          |[(h & L & w1 & m & T & w2 & server & database
             & He & Hq & Hin & Hd & Hq2 & HT & Hs & Hdb & Hrun)
           |(h & L & w1 & m & T & w2 & t & w3
             & He & Hq & Hin & Hd & Hq2 & HT & Hr & Hrun)]]];
      match type of Hrun with
      | ?l = _ => change l with (_reflect_view B view schema st) in Hrun
      end;
      rewrite Hrun.
    + left. eauto 10.
    + right; left. eauto 15.
    + right; right; left. exists h, L, w1, m, T, w2, server, database.
      eauto 15.
    + destruct (setattr_run B (default view a) (VTable t)
                  (State (attrs_after_cache B m schema w1 (attrs st)) w3
                     (trace st ++ EvSchemaNames
                        :: creation_events B m schema
                        ++ [EvViewNames (Some schema);
                            EvReflect view schema])))
        as [[Hok Hset]|[Hbad [d Hset]]].
      * right; right; right. exists h, L, w1, m, T, w2, t, w3.
        destruct a; simpl in *; rewrite Hset; eauto 15.
      * left. eexists d, _, (protocol B (SetView view a schema) m).
        destruct a; simpl in *; rewrite Hset;
          (split; [done|]); (split; [done|]);
          destruct (Hfull m) as [-> | ->]; eauto.
Qed.

(** X8. [MissingSchemaError] is raised for a reason: the engine of the
    instance answered the schema query with a list that lacks the schema
    of the call.  That query is all that was done: the attributes are as
    they were, and the message names the schema and the server and
    database attributes. *)
Theorem missing_schema_is_sound (c : call) (st st' : state B) (msg : string) :
  invoke B c st = (Raise (MissingSchemaError msg), st') →
  ∃ h L server database,
    attrs st !! "engine" = Some (VHandle h)
    ∧ (get_schema_names B h (world st)).1 = Ans L
    ∧ (schema_of c ∉ L)
    ∧ attrs st' = attrs st
    ∧ trace st' = trace st ++ [EvSchemaNames]
    ∧ attrs st !! "server" = Some server
    ∧ attrs st !! "database" = Some database
    ∧ msg = missing_schema_message B c server database.
Proof.
  intros Hrun.
  destruct (bind_cases c st)
    as [(d & st1 & evs & Heq & _)
       |[(h & L & w1 & server & database & He & Hq & Hin & Hs & Hdb & Heq)
        |[(h & L & w1 & m & T & w2 & server & database & _ & _ & _ & _ & _ & _
           & _ & _ & Heq)
         |(h & L & w1 & m & T & w2 & t & w3 & _ & _ & _ & _ & _ & _ & _ & _
           & Heq)]]];
    rewrite Heq in Hrun; try done.
  - simplify_eq. exists h, L, server, database. rewrite Hq. eauto 10.
  - destruct c; simplify_eq.
Qed.

(** X9. [MissingTableError] comes from [set_table] only and
    [MissingViewError] from [set_view] only, and each is raised for a
    reason: the schema was in the live schema list and the object was not
    in the live list of that schema, asked for after the cache step.  The
    message names the object, the server and database attributes and the
    schema, and says [View:] for a table as well. *)
Theorem missing_object_is_sound (c : call) (st st' : state B) (e : exn) :
  invoke B c st = (Raise e, st') →
  (∃ msg, e = MissingTableError msg) ∨ (∃ msg, e = MissingViewError msg) →
  ∃ h L w1 m T w2 server database,
    attrs st !! "engine" = Some (VHandle h)
    ∧ get_schema_names B h (world st) = (Ans L, w1)
    ∧ (schema_of c ∈ L)
    ∧ attrs st !! "metadata_dict" = Some (VDict m)
    ∧ live_names B c h (world_after_cache B m (schema_of c) w1) = (Ans T, w2)
    ∧ (object_name c ∉ T)
    ∧ attrs st !! "server" = Some server
    ∧ attrs st !! "database" = Some database
    ∧ e = object_error c (missing_object_message B c server database)
    ∧ startswith (missing_object_message B c server database) "View: " = true
    ∧ trace st'
      = trace st ++ EvSchemaNames
          :: creation_events B m (schema_of c) ++ [names_event c].
Proof.
  intros Hrun He.
  destruct (bind_cases c st)
    as [(d & st1 & evs & Heq & _)
       |[(h & L & w1 & server & database & _ & _ & _ & _ & _ & Heq)
        |[(h & L & w1 & m & T & w2 & server & database & Hh & Hq & Hin & Hd
           & Hq2 & HT & Hs & Hdb & Heq)
         |(h & L & w1 & m & T & w2 & t & w3 & _ & _ & _ & _ & _ & _ & _ & _
           & Heq)]]];
    rewrite Heq in Hrun; simplify_eq;
    try (destruct He as [[? [=]]|[? [=]]]; fail).
  exists h, L, w1, m, T, w2, server, database. eauto 15.
Qed.

(** X10. A bind call returns for a reason: the schema was in the live
    schema list, the object was in the live list of that schema, and
    [Table] answered with a descriptor.  The descriptor was registered
    with the [MetaData] object of the schema, the cached one if there was
    one, and is bound under the name the call resolves to; apart from
    that name and the cache the attributes are as they were, and the
    backend was called in the order: schema list, [MetaData] if the
    schema was not cached, object list, [Table]. *)
Theorem bind_returns_is_sound (c : call) (st st' : state B) :
  invoke B c st = (Return (), st') →
  ∃ h L w1 m T w2 t w3,
    attrs st !! "engine" = Some (VHandle h)
    ∧ get_schema_names B h (world st) = (Ans L, w1)
    ∧ (schema_of c ∈ L)
    ∧ attrs st !! "metadata_dict" = Some (VDict m)
    ∧ live_names B c h (world_after_cache B m (schema_of c) w1) = (Ans T, w2)
    ∧ (object_name c ∈ T)
    ∧ reflect_Table B (object_name c)
        (cached_MetaData B m (schema_of c) w1) h w2 = (Ans t, w3)
    ∧ (∀ md, cache_entry B st (schema_of c) = Some md →
             cached_MetaData B m (schema_of c) w1 = md)
    ∧ attrs st' !! resolved_name c = Some (VTable t)
    ∧ (∀ n, n ≠ resolved_name c → n ≠ "metadata_dict" →
            attrs st' !! n = attrs st !! n)
    ∧ trace st' = trace st ++ protocol B c m.
Proof.
  intros Hrun.
  destruct (bind_cases c st)
    as [(d & st1 & evs & Heq & _)
       |[(h & L & w1 & server & database & _ & _ & _ & _ & _ & Heq)
        |[(h & L & w1 & m & T & w2 & server & database & _ & _ & _ & _ & _ & _
           & _ & _ & Heq)
         |(h & L & w1 & m & T & w2 & t & w3 & Hh & Hq & Hin & Hd & Hq2 & HT
           & Hr & Hok & Heq)]]];
    rewrite Heq in Hrun; simplify_eq.
  exists h, L, w1, m, T, w2, t, w3. simpl.
  do 7 (split; [done|]). split; [|split; [|split]].
  - intros md. unfold cache_entry, cached_MetaData. rewrite Hd.
    by intros ->.
  - by rewrite lookup_insert_eq.
  - intros n Hn1 Hn2. rewrite lookup_insert_ne by done.
    unfold attrs_after_cache. destruct (m !! schema_of c); [done|].
    by rewrite lookup_insert_ne.
  - done.
Qed.


(** X12. Bind calls never remove an attribute: what is there stays there,
    so an instance keeps the six attributes that the constructor made. *)
Theorem attributes_are_never_removed (st st' : state B) :
  rtc (step B) st st' →
  (∀ n, is_Some (attrs st !! n) → is_Some (attrs st' !! n))
  ∧ (is_instance B st → is_instance B st').
Proof.
  intros Hsteps.
  assert (Hkeep : ∀ n, is_Some (attrs st !! n) → is_Some (attrs st' !! n)).
  { induction Hsteps as [|sta stb stc Hstep _ IH]; [done|].
    intros n Hn. apply IH. clear IH.
    destruct Hstep as [c sta|w sta]; [|done].
    destruct (invoke_effect B c sta) as (stm & Heff & _ & Ha).
    assert (Hm : is_Some (attrs stm !! n)).
    { destruct Heff as [evs -> _ _|m md evs1 evs2 _ _ -> _ _ _]; [done|].
      rewrite lookup_insert_is_Some. destruct (decide ("metadata_dict" = n));
        eauto. }
    destruct Ha as [->|[_ [d ->]]]; [done|].
    rewrite lookup_insert_is_Some. destruct (decide (resolved_name c = n));
      eauto. }
  split; [done|]. intros Hinst f Hf. eauto.
Qed.

(** X13. A bind call that raises has bound nothing: every attribute other
    than the cache is as it was, and the cache has lost no entry. *)
Theorem failed_bind_binds_nothing (c : call) (st st' : state B) (e : exn) :
  invoke B c st = (Raise e, st') →
  (∀ n, n ≠ "metadata_dict" → attrs st' !! n = attrs st !! n)
  ∧ ∀ schema md, cache_entry B st schema = Some md →
                 cache_entry B st' schema = Some md.
Proof.
  intros Hrun. rewrite invoke_descriptor in Hrun.
  pose proof (descriptor_of_effect B c st) as Heff.
  destruct (descriptor_of B c st) as [[d|e1] stm]; simpl in *.
  - destruct (setattr_run B (resolved_name c) (VTable d) stm)
      as [[_ Hs]|[_ [d' Hs]]]; rewrite Hs in Hrun; simplify_eq.
    split.
    + intros n Hn. by eapply reflect_effect_other.
    + intros schema md. by eapply reflect_effect_entry.
  - simplify_eq. split.
    + intros n Hn. by eapply reflect_effect_other.
    + intros schema md. by eapply reflect_effect_entry.
Qed.

(** X14. On an instance whose [engine] and [metadata_dict] attributes
    are the engine and the cache and whose bind methods are not hidden: a
    bind call for a schema in the live schema list and an object in the
    live list of that schema, which [Table] reflects, under a name that
    can be set, returns; it has bound the descriptor, added the schema to
    the cache if it was not there, and called the backend in order. *)
Theorem bind_succeeds (c : call) (st : state B)
    (h : Handle B) (m : gmap string (MetaData B))
    (L T : list string) (w1 w2 w3 : World B) (t : Table B) :
  unshadowed B st c →
  attrs st !! "engine" = Some (VHandle h) →
  attrs st !! "metadata_dict" = Some (VDict m) →
  get_schema_names B h (world st) = (Ans L, w1) →
  schema_of c ∈ L →
  live_names B c h (world_after_cache B m (schema_of c) w1) = (Ans T, w2) →
  object_name c ∈ T →
  reflect_Table B (object_name c) (cached_MetaData B m (schema_of c) w1) h w2
  = (Ans t, w3) →
  resolved_name c ∉ refused_names →
  invoke B c st
  = (Return (),
     State (<[resolved_name c := VTable t]>
              (attrs_after_cache B m (schema_of c) w1 (attrs st)))
       w3 (trace st ++ protocol B c m)).
Proof.
  intros Hun He Hd Hq Hin Hq2 HT Hr Hok.
  destruct (bind_cases c st) as [HF|[HS|[HO|HR]]].
  2:{ destruct HS as (h' & L' & w1' & server & database & He' & Hq' & Hin'
                      & _ & _ & Heq).
      assert (h' = h) as -> by congruence.
      assert (L' = L) as -> by congruence. by destruct Hin'. }
  2:{ destruct HO as (h' & L' & w1' & m' & T' & w2' & server & database & He'
                      & Hq' & Hin' & Hd' & Hq2' & HT' & _ & _ & Heq).
      assert (h' = h) as -> by congruence.
      assert (m' = m) as -> by congruence.
      assert (w1' = w1) as -> by congruence.
      assert (T' = T) as -> by congruence. by destruct HT'. }
  2:{ destruct HR as (h' & L' & w1' & m' & T' & w2' & t' & w3' & He' & Hq'
                      & Hin' & Hd' & Hq2' & HT' & Hr' & _ & Heq).
      assert (h' = h) as -> by congruence.
      assert (m' = m) as -> by congruence.
      assert (w1' = w1) as -> by congruence.
      assert (w2' = w2) as -> by congruence.
      assert (t' = t) as -> by congruence.
      assert (w3' = w3) as -> by congruence. exact Heq. }
  destruct HF as (d & st1 & evs & Heq & _).
  exfalso. revert Heq.
  pose proof (Hun "_list_schema_from_engine"
                ltac:(destruct c; names)) as H3.
  rewrite invoke_descriptor.
  pose proof (check_schema_passes B (schema_of c) st h L w1 H3 He Hq Hin)
    as Hcs.
  destruct (add_schema_run B (schema_of c)
              (State (attrs st) w1 (trace st ++ [EvSchemaNames])))
    as [(m' & md & Hd' & Hm & Has)|[(m' & Hd' & Hm & Has)|(d' & Has)]];
    simpl in *; simplify_eq.
  - unfold world_after_cache, cached_MetaData in *. rewrite Hm in *.
    destruct c as [table a schema|view a schema]; simpl in *.
    + pose proof (Hun "set_table" ltac:(names)) as H1.
      pose proof (Hun "_reflect_table" ltac:(names)) as H2.
      pose proof (Hun "_list_tables_from_engine" ltac:(names)) as H4.
      unfold _reflect_table, method. unfold_monad. rewrite H1, H2, Hcs, Has.
      unfold _list_tables_from_engine, make_Table, getattr, as_engine,
        as_dict, external. unfold_monad. simpl.
      rewrite H4. simpl. rewrite He. simpl. rewrite Hq2. simpl.
      rewrite bool_decide_eq_true_2 by done.
      simpl. rewrite Hd. simpl. rewrite Hm. simpl. rewrite ?He. simpl.
      rewrite Hr. simpl.
      unfold setattr. rewrite bool_decide_eq_false_2 by done. done.
    + pose proof (Hun "set_view" ltac:(names)) as H1.
      pose proof (Hun "_reflect_view" ltac:(names)) as H2.
      pose proof (Hun "_list_views_from_engine" ltac:(names)) as H4.
      unfold _reflect_view, method. unfold_monad. rewrite H1, H2, Hcs, Has.
      unfold _list_views_from_engine, make_Table, getattr, as_engine,
        as_dict, external. unfold_monad. simpl.
      rewrite H4. simpl. rewrite He. simpl. rewrite Hq2. simpl.
      rewrite bool_decide_eq_true_2 by done.
      simpl. rewrite Hd. simpl. rewrite Hm. simpl. rewrite ?He. simpl.
      rewrite Hr. simpl.
      unfold setattr. rewrite bool_decide_eq_false_2 by done. done.
  - unfold world_after_cache, cached_MetaData in *. rewrite Hm in *.
    destruct c as [table a schema|view a schema]; simpl in *.
    + pose proof (Hun "set_table" ltac:(names)) as H1.
      pose proof (Hun "_reflect_table" ltac:(names)) as H2.
      pose proof (Hun "_list_tables_from_engine" ltac:(names)) as H4.
      unfold _reflect_table, method. unfold_monad. rewrite H1, H2, Hcs, Has.
      unfold _list_tables_from_engine, make_Table, getattr, as_engine,
        as_dict, external. unfold_monad. simpl.
      rewrite !lookup_insert_ne by discriminate.
      rewrite H4. simpl. rewrite He. simpl. rewrite Hq2. simpl.
      rewrite bool_decide_eq_true_2 by done.
      simpl. rewrite !lookup_insert_eq. simpl.
      rewrite ?lookup_insert_ne by discriminate. rewrite ?He. simpl.
      rewrite Hr. simpl.
      unfold setattr. rewrite bool_decide_eq_false_2 by done. done.
    + pose proof (Hun "set_view" ltac:(names)) as H1.
      pose proof (Hun "_reflect_view" ltac:(names)) as H2.
      pose proof (Hun "_list_views_from_engine" ltac:(names)) as H4.
      unfold _reflect_view, method. unfold_monad. rewrite H1, H2, Hcs, Has.
      unfold _list_views_from_engine, make_Table, getattr, as_engine,
        as_dict, external. unfold_monad. simpl.
      rewrite !lookup_insert_ne by discriminate.
      rewrite H4. simpl. rewrite He. simpl. rewrite Hq2. simpl.
      rewrite bool_decide_eq_true_2 by done.
      simpl. rewrite !lookup_insert_eq. simpl.
      rewrite ?lookup_insert_ne by discriminate. rewrite ?He. simpl.
      rewrite Hr. simpl.
      unfold setattr. rewrite bool_decide_eq_false_2 by done. done.
  - exfalso. revert Has.
    unfold add_schema, getattr, as_dict, external, setitem_metadata_dict.
    unfold_monad. simpl. rewrite Hd. simpl.
    destruct (m !! schema_of c); [done|]. simpl.
    destruct (new_MetaData B (schema_of c) w1). simpl. by rewrite ?Hd.
Qed.

End Binding.

Lemma factory_missing_library_witness :
  generate_sql_connection Shop.backend "srv" "shop" None None "pyodbc"
    Shop.start
  = (Raise (ImportError ("Must have " +:+ "pyodbc" +:+ " installed to use "
                         +:+ "pyodbc" +:+ " driver")), Shop.start).
Proof.
  apply (factory_missing_library Shop.backend "srv" "shop" None None "pyodbc"
           Shop.start).
  - names.
  - reflexivity.
  - reflexivity.
Defined.

Lemma missing_schema_is_sound_witness :
  let c := SetTable "orders" None "x" in
  let st' := (invoke Shop.backend c Shop.cfg).2 in
  ∃ h L server database,
    attrs Shop.cfg !! "engine" = Some (VHandle h)
    ∧ (get_schema_names Shop.backend h (world Shop.cfg)).1 = Ans L
    ∧ (schema_of c ∉ L)
    ∧ attrs st' = attrs Shop.cfg
    ∧ trace st' = trace Shop.cfg ++ [EvSchemaNames]
    ∧ attrs Shop.cfg !! "server" = Some server
    ∧ attrs Shop.cfg !! "database" = Some database
    ∧ "Schema: x is missing from srv.shop"
      = missing_schema_message Shop.backend c server database.
Proof.
  intros c st'.
  apply (missing_schema_is_sound Shop.backend c Shop.cfg st'
           "Schema: x is missing from srv.shop").
  reflexivity.
Defined.

Lemma missing_object_is_sound_witness :
  let c := SetTable "nosuch" None "dbo" in
  let st' := (invoke Shop.backend c Shop.cfg).2 in
  let e := MissingTableError "View: nosuch is missing from srv.shop.dbo" in
  ∃ h L w1 m T w2 server database,
    attrs Shop.cfg !! "engine" = Some (VHandle h)
    ∧ get_schema_names Shop.backend h (world Shop.cfg) = (Ans L, w1)
    ∧ (schema_of c ∈ L)
    ∧ attrs Shop.cfg !! "metadata_dict" = Some (VDict m)
    ∧ live_names Shop.backend c h
        (world_after_cache Shop.backend m (schema_of c) w1) = (Ans T, w2)
    ∧ (object_name c ∉ T)
    ∧ attrs Shop.cfg !! "server" = Some server
    ∧ attrs Shop.cfg !! "database" = Some database
    ∧ e = object_error c (missing_object_message Shop.backend c server database)
    ∧ startswith (missing_object_message Shop.backend c server database)
        "View: " = true
    ∧ trace st'
      = trace Shop.cfg ++ EvSchemaNames
          :: creation_events Shop.backend m (schema_of c) ++ [names_event c].
Proof.
  intros c st' e.
  apply (missing_object_is_sound Shop.backend c Shop.cfg st' e).
  - reflexivity.
  - left. by eexists.
Defined.

Lemma bind_returns_is_sound_witness :
  let c := SetTable "orders" None "dbo" in
  let st' := (invoke Shop.backend c Shop.cfg).2 in
  ∃ h L w1 m T w2 t w3,
    attrs Shop.cfg !! "engine" = Some (VHandle h)
    ∧ get_schema_names Shop.backend h (world Shop.cfg) = (Ans L, w1)
    ∧ (schema_of c ∈ L)
    ∧ attrs Shop.cfg !! "metadata_dict" = Some (VDict m)
    ∧ live_names Shop.backend c h
        (world_after_cache Shop.backend m (schema_of c) w1) = (Ans T, w2)
    ∧ (object_name c ∈ T)
    ∧ reflect_Table Shop.backend (object_name c)
        (cached_MetaData Shop.backend m (schema_of c) w1) h w2 = (Ans t, w3)
    ∧ (∀ md, cache_entry Shop.backend Shop.cfg (schema_of c) = Some md →
             cached_MetaData Shop.backend m (schema_of c) w1 = md)
    ∧ attrs st' !! resolved_name c = Some (VTable t)
    ∧ (∀ n, n ≠ resolved_name c → n ≠ "metadata_dict" →
            attrs st' !! n = attrs Shop.cfg !! n)
    ∧ trace st' = trace Shop.cfg ++ protocol Shop.backend c m.
Proof.
  intros c st'.
  apply (bind_returns_is_sound Shop.backend c Shop.cfg st').
  reflexivity.
Defined.

Lemma attributes_are_never_removed_witness :
  let st' := Shop.after [SetTable "orders" None "dbo"] Shop.cfg in
  (∀ n, is_Some (attrs Shop.cfg !! n) → is_Some (attrs st' !! n))
  ∧ (is_instance Shop.backend Shop.cfg → is_instance Shop.backend st').
Proof.
  intros st'.
  apply (attributes_are_never_removed Shop.backend Shop.cfg st').
  eapply rtc_l; [|apply rtc_refl].
  apply (step_invoke Shop.backend (SetTable "orders" None "dbo")).
Defined.

Lemma failed_bind_binds_nothing_witness :
  let c := SetTable "nosuch" None "dbo" in
  let st' := (invoke Shop.backend c Shop.cfg).2 in
  (∀ n, n ≠ "metadata_dict" → attrs st' !! n = attrs Shop.cfg !! n)
  ∧ ∀ schema md, cache_entry Shop.backend Shop.cfg schema = Some md →
                 cache_entry Shop.backend st' schema = Some md.
Proof.
  intros c st'.
  apply (failed_bind_binds_nothing Shop.backend c Shop.cfg st'
           (MissingTableError "View: nosuch is missing from srv.shop.dbo")).
  reflexivity.
Defined.

Lemma bind_succeeds_witness :
  let c := SetTable "orders" None "dbo" in
  let t : Table Shop.backend := ("orders", (0, "dbo")) in
  invoke Shop.backend c Shop.cfg
  = (Return (),
     State (<["orders" := VTable t]>
              (attrs_after_cache Shop.backend ∅ "dbo" 0 (attrs Shop.cfg)))
       1 (trace Shop.cfg ++ protocol Shop.backend c ∅)).
Proof.
  intros c t.
  eapply (bind_succeeds Shop.backend c Shop.cfg _ ∅ ["dbo"; "sales"]
            ["orders"; "engine"] 0 1 1 t).
  - apply shop_cfg_unshadowed.
  - vm_compute. reflexivity.
  - vm_compute. reflexivity.
  - reflexivity.
  - simpl. names.
  - reflexivity.
  - simpl. names.
  - reflexivity.
  - simpl. names.
Defined.
